(** * traviconda: a shallow embedding of [traviconda.py]

    The script drives external programs (wget, the miniconda installer,
    conda, binstar), prints progress to standard output, reads the Travis
    CI environment variables and raises Python exceptions.  The embedding
    keeps all of that explicit:

    - the interpreter state is a record holding what was written to
      standard output, the child processes spawned so far, the module
      global [ns], [os.environ] and the outside world;
    - a Python function is a computation in a state-and-exception monad
      [Py];
    - the operating system is a parameter: [spawn cmd w] starts the
      process [cmd] in world [w] and gives its exit status, everything
      it wrote to stdout/stderr, and the world it leaves behind. *)

From Stdlib Require Import ZArith Ascii String.
From stdpp Require Import base option list strings gmap.

Local Open Scope string_scope.
Local Open Scope list_scope.

(** ** Python values and exceptions *)

(** The exceptions the script can raise.  [CalledProcessError] is the one
    of [subprocess]: [returncode], [cmd], and [output], which is [None]
    unless the caller captured the output. *)
Inductive exn : Type :=
  | CalledProcessError (returncode : Z) (cmd : list string)
                       (output : option string)
  | NameError (name : string)
  | KeyError (key : string)
  | ValueError (msg : string)
  | TypeError (msg : string)
  | IndexError (msg : string)
  | ExternalError (msg : string).

Definition exn_returncode (e : exn) : option Z :=
  match e with CalledProcessError rc _ _ => Some rc | _ => None end.

Definition exn_cmd (e : exn) : option (list string) :=
  match e with CalledProcessError _ c _ => Some c | _ => None end.

Definition exn_output (e : exn) : option string :=
  match e with CalledProcessError _ _ o => o | _ => None end.

Definition is_CalledProcessError (e : exn) : bool :=
  match e with CalledProcessError _ _ _ => true | _ => false end.

Inductive outcome (A : Type) : Type :=
  | Return (a : A)
  | Raise (e : exn).
Arguments Return {A} a.
Arguments Raise {A} e.

(** [str(x)] as ['{}'.format(x)] computes it, for the values the script
    formats: a string is itself, [None] is ["None"], a bool is ["True"]
    or ["False"]. *)
Definition format_opt (x : option string) : string :=
  match x with Some s => s | None => "None" end.

Definition format_bool (b : bool) : string :=
  if b then "True" else "False".

(** The one-character string holding a double quote. *)
Definition dquote : string := String (ascii_of_nat 34) EmptyString.

(** [sep.join(l)] *)
Definition join (sep : string) (l : list string) : string :=
  String.concat sep l.

(** [l[i] = x]: Python raises [IndexError] out of range. *)
Definition list_setitem (l : list string) (i : nat) (x : string)
  : exn + list string :=
  if bool_decide (i < length l)%nat then inr (<[i:=x]> l)
  else inl (IndexError "list assignment index out of range").

(** [posixpath.join(a, b)] *)
Fixpoint endswith_slash (a : string) : bool :=
  match a with
  | EmptyString => false
  | String c EmptyString => Ascii.eqb c "/"%char
  | String _ a' => endswith_slash a'
  end.

Definition path_join (a b : string) : string :=
  if String.prefix "/" b then b
  else if String.eqb a EmptyString || endswith_slash a then a +:+ b
  else a +:+ "/" +:+ b.

(** ** The command-line namespace *)

Inductive Mode : Type := setup | build_mode.

(** What [parser.parse_args()] returns: [mode] is one of the two choices,
    every option is [None] when it is not given. *)
Record Namespace : Type := mkNamespace {
  ns_mode : Mode;
  ns_url : option string;
  ns_channel : option string;
  ns_path : option string;
  ns_user : option string;
  ns_key : option string
}.

(** ** Child processes *)

(** Which [subprocess] wrapper started a process. *)
Inductive call : Type :=
  | via_co (cmd : list string)
  | via_check (cmd : list string).

Definition call_cmd (c : call) : list string :=
  match c with via_co cmd => cmd | via_check cmd => cmd end.

Definition is_via_co (c : call) : bool :=
  match c with via_co _ => true | via_check _ => false end.

Definition is_via_check (c : call) : bool :=
  match c with via_co _ => false | via_check _ => true end.

Section Script.

(** The outside world and the operating system's process launcher. *)
Context {World : Type}.
Variable spawn : list string -> World -> Z * string * World.

(** [os.path.expanduser] and the [conda_build] library functions behind
    [get_conda_build_path] are taken as given. *)
Variable expanduser : string -> string.
Variable bldpkg_path_MetaData : option string -> World -> exn + string.

(** ** Interpreter state *)

Record state : Type := mkState {
  stdout : list string;          (* what reached standard output, in order *)
  calls : list call;             (* child processes started, in order *)
  ns : option Namespace;         (* the module global [ns], if bound *)
  environ : gmap string string;  (* [os.environ] *)
  world : World
}.

Definition Py (A : Type) : Type := state -> outcome A * state.

Definition ret {A} (a : A) : Py A := fun s => (Return a, s).

Definition raise {A} (e : exn) : Py A := fun s => (Raise e, s).

Definition bind {A B} (m : Py A) (k : A -> Py B) : Py B :=
  fun s =>
    match m s with
    | (Return a, s') => k a s'
    | (Raise e, s') => (Raise e, s')
    end.

(** [try: body except CalledProcessError as e: handler e] *)
Definition try_except_CalledProcessError {A} (body : Py A)
    (handler : exn -> Py A) : Py A :=
  fun s =>
    match body s with
    | (Return a, s') => (Return a, s')
    | (Raise e, s') =>
        if is_CalledProcessError e then handler e s' else (Raise e, s')
    end.

Notation "'let!' x ':=' m 'in' k" := (bind m (fun x => k))
  (at level 10, x name, m at level 100, k at level 200).
Notation "'do!' m 'in' k" := (bind m (fun _ => k))
  (at level 10, m at level 100, k at level 200).

(** [print(line)] *)
Definition print (line : string) : Py unit :=
  fun s => (Return tt,
            mkState (stdout s ++ [line]) (calls s) (ns s) (environ s)
                    (world s)).

(** Reading the global [ns]: a [NameError] when it was never assigned. *)
Definition global_ns : Py Namespace :=
  fun s =>
    match ns s with
    | Some n => (Return n, s)
    | None => (Raise (NameError "ns"), s)
    end.

(** [ns = v] at module level *)
Definition assign_ns (v : Namespace) : Py unit :=
  fun s => (Return tt,
            mkState (stdout s) (calls s) (Some v) (environ s) (world s)).

(** [os.environ[name]] *)
Definition os_environ (name : string) : Py string :=
  fun s =>
    match environ s !! name with
    | Some v => (Return v, s)
    | None => (Raise (KeyError name), s)
    end.

(** [co = partial(subprocess.check_output, stderr=subprocess.STDOUT)]:
    the child's stdout and stderr are captured together and returned; a
    non-zero exit status raises [CalledProcessError] carrying them. *)
Definition co (cmd : list string) : Py string :=
  fun s =>
    let '(rc, out, w) := spawn cmd (world s) in
    let s' := mkState (stdout s) (calls s ++ [via_co cmd]) (ns s)
                      (environ s) w in
    if (rc =? 0)%Z then (Return out, s')
    else (Raise (CalledProcessError rc cmd (Some out)), s').

(** [check = partial(subprocess.check_call, stderr=subprocess.STDOUT)]:
    nothing is captured: the child writes straight to the inherited
    standard output, and the [CalledProcessError] of a non-zero exit
    status has no [output]. *)
Definition check (cmd : list string) : Py unit :=
  fun s =>
    let '(rc, out, w) := spawn cmd (world s) in
    let s' := mkState (stdout s ++ [out]) (calls s ++ [via_check cmd])
                      (ns s) (environ s) w in
    if (rc =? 0)%Z then (Return tt, s')
    else (Raise (CalledProcessError rc cmd None), s').

(** ** The functions of the script *)

Definition execute (cmd : list string) (verbose : bool) : Py string :=
  do! (if verbose then print ("> " +:+ join " " cmd) else ret tt) in
  let! result := co cmd in
  do! (if verbose then print result else ret tt) in
  ret result.

(** The [for] loop of [execute_sequence]. *)
Fixpoint execute_each (cmds : list (list string)) (verbose : bool)
  : Py unit :=
  match cmds with
  | [] => ret tt
  | cmd :: rest =>
      do! execute cmd verbose in
      execute_each rest verbose
  end.

(** [execute_sequence]: [cmds] are the positional arguments,
    [kwargs_verbose] is the keyword argument [verbose], [None] when it is
    not passed, so that [kwargs.get('verbose', True)] is its default. *)
Definition execute_sequence (cmds : list (list string))
    (kwargs_verbose : option bool) : Py unit :=
  let verbose := default true kwargs_verbose in
  try_except_CalledProcessError
    (execute_each cmds verbose)
    (fun e =>
       do! print (" -> " +:+ format_opt (exn_output e)) in
       raise e).

Definition miniconda_dir : string := expanduser "~/miniconda".
Definition miniconda_bin_dir : string := path_join miniconda_dir "bin".
Definition conda : string := path_join miniconda_bin_dir "conda".
Definition binstar : string := path_join miniconda_bin_dir "binstar".
Definition python : string := "python".

Definition setup_miniconda (url : string) (channel : option string)
  : Py unit :=
  let! n := global_ns in
  do! print ("Setting up miniconda from URL " +:+ format_opt (ns_path n)) in
  let miniconda_file := "miniconda.sh" in
  let cmds :=
    [ ["wget"; "-nv"; url; "-O"; miniconda_file];
      [python; miniconda_file; "-b"; "-p"; miniconda_dir];
      [conda; "update"; "-q"; "--yes"; "conda"];
      [conda; "install"; "-q"; "--yes"; "conda-build"; "jinja2";
       "binstar"] ] in
  match channel with
  | Some ch =>
      do! print ("(adding channel '" +:+ ch +:+ "' for dependencies)") in
      execute_sequence (cmds ++ [[conda; "config"; "--add"; "channels"; ch]])
                       None
  | None =>
      do! print ("No channels have been configured (all dependencies " +:+
                 "have to be sourceble from anaconda)") in
      execute_sequence cmds None
  end.

(** [build(path)].  [path] is [ns.path], which is [None] when [--path]
    is not given; the list then holds a [None] and [' '.join(cmd)] in
    [execute] raises a [TypeError] before any process is started. *)
Definition build (path : option string) : Py unit :=
  match path with
  | Some p => execute_sequence [[conda; "build"; "-q"; p]] None
  | None =>
      raise (TypeError "sequence item 3: expected string, NoneType found")
  end.

Definition get_conda_build_path (path : option string) : Py string :=
  fun s =>
    match bldpkg_path_MetaData path (world s) with
    | inr pkg => (Return pkg, s)
    | inl e => (Raise e, s)
    end.

(** In the handler, [cmd] is the very list that was passed to [check]:
    the assignment [cmd[2] = 'BINSTAR_KEY'] updates it in place and the
    new error is built from it, without [output]. *)
Definition binstar_upload (key user channel path : string) : Py unit :=
  try_except_CalledProcessError
    (check [binstar; "-t"; key; "upload"; "--force"; "-u"; user;
            "-c"; channel; path])
    (fun e =>
       match e with
       | CalledProcessError e_returncode e_cmd _ =>
           let cmd := e_cmd in
           match list_setitem cmd 2 "BINSTAR_KEY" with
           | inr cmd' => raise (CalledProcessError e_returncode cmd' None)
           | inl err => raise err
           end
       | _ => raise e
       end).

Definition resolve_can_upload_from_travis : Py bool :=
  let! pr := os_environ "TRAVIS_PULL_REQUEST" in
  let is_a_pr := String.eqb pr "true" in
  let can_upload := negb is_a_pr in
  do! print ("Can we can upload? : " +:+ format_bool can_upload) in
  ret can_upload.

Definition resolve_channel_from_travis_state : Py string :=
  let! branch := os_environ "TRAVIS_BRANCH" in
  let! tag := os_environ "TRAVIS_TAG" in
  do! print ("Travis branch is " +:+ dquote +:+ branch +:+ dquote) in
  do! print ("Travis tag found is: " +:+ dquote +:+ tag +:+ dquote) in
  if negb (String.eqb tag EmptyString) && String.eqb branch tag then
    do! print "on a tagged release -> upload to 'main'" in
    ret "main"
  else
    do! print ("not on a tag on master - " +:+
               "just upload to the branch name " +:+ branch) in
    ret branch.

Definition build_and_upload (path user key : option string) : Py unit :=
  let! n := global_ns in
  do! print ("Building package at path " +:+ format_opt (ns_path n)) in
  do! build path in
  do! (if key is None then print "No binstar key provided" else ret tt) in
  do! (if user is None then print "No binstar user provided" else ret tt) in
  match user, key with
  | Some u, Some k =>
      let! can := resolve_can_upload_from_travis in
      if can then
        let! channel := resolve_channel_from_travis_state in
        do! print ("Uploading to " +:+ u +:+ "/" +:+ channel) in
        let! pkg := get_conda_build_path path in
        binstar_upload k u channel pkg
      else ret tt
  | _, _ =>
      do! print "-> Unable to upload to binstar" in
      ret tt
  end.

(** The [__main__] block, after [parser.parse_args()] has produced
    [parsed]. *)
Definition main (parsed : Namespace) : Py unit :=
  do! assign_ns parsed in
  match ns_mode parsed with
  | setup =>
      match ns_url parsed with
      | None =>
          raise (ValueError ("You must provide a miniconda URL for the " +:+
                             "setup command"))
      | Some u => setup_miniconda u (ns_channel parsed)
      end
  | build_mode =>
      build_and_upload (ns_path parsed) (ns_user parsed) (ns_key parsed)
  end.

(** The interpreter's exit status: 0 when the script runs to its end, 1
    when an exception reaches the top level. *)
Definition exit_status {A} (r : outcome A) : Z :=
  match r with Return _ => 0%Z | Raise _ => 1%Z end.

(** ** Vocabulary for the statements *)

(** [exit_zero cmds w]: started one after the other from world [w], every
    command of [cmds] exits with status 0; the result is what each one
    wrote and the world after the last. *)
Fixpoint exit_zero (cmds : list (list string)) (w : World)
  : option (list string * World) :=
  match cmds with
  | [] => Some ([], w)
  | cmd :: rest =>
      let '(rc, out, w') := spawn cmd w in
      if (rc =? 0)%Z then
        match exit_zero rest w' with
        | Some (outs, w'') => Some (out :: outs, w'')
        | None => None
        end
      else None
  end.

End Script.

(** [needle in hay] on Python strings. *)
Fixpoint contains_string (needle hay : string) : bool :=
  String.prefix needle hay ||
  match hay with
  | EmptyString => false
  | String _ hay' => contains_string needle hay'
  end.

(** Does some string-valued field of the error hold [secret]? *)
Definition mentions (secret : string) (e : exn) : bool :=
  match e with
  | CalledProcessError _ cmd output =>
      existsb (contains_string secret) cmd ||
      (if output is Some o then contains_string secret o else false)
  | NameError m | KeyError m | ValueError m | TypeError m | IndexError m
  | ExternalError m => contains_string secret m
  end.

(** What a verbose run of [cmds] with outputs [outs] prints: for each
    command its echo, then its output. *)
Fixpoint transcript (cmds : list (list string)) (outs : list string)
  : list string :=
  match cmds, outs with
  | cmd :: cmds', out :: outs' =>
      ("> " +:+ join " " cmd) :: out :: transcript cmds' outs'
  | _, _ => []
  end.

Arguments state World : clear implicits.
Arguments Py World A : clear implicits.

(** ** Concrete scenarios *)

(** A world that only counts the processes it has run. *)
Definition all_succeed (cmd : list string) (w : nat) : Z * string * nat :=
  (0%Z, "ok", S w).

(** Every process fails with status 1. *)
Definition all_fail (cmd : list string) (w : nat) : Z * string * nat :=
  (1%Z, "boom", S w).

(** Every process succeeds but the one started as [bad]. *)
Definition fails_on (bad : list string) (cmd : list string) (w : nat)
  : Z * string * nat :=
  if bool_decide (cmd = bad) then (2%Z, "boom", S w) else (0%Z, "ok", S w).

Definition no_pkg_path (p : option string) (w : nat) : exn + string :=
  inr (format_opt p +:+ ".tar.bz2").

(** [expanduser] for a user whose home is [/home/travis]. *)
Definition home_root (p : string) : string :=
  match p with
  | String c rest =>
      if Ascii.eqb c "~"%char then "/home/travis" +:+ rest else p
  | EmptyString => p
  end.

Definition travis_env (pr branch tag : string) : gmap string string :=
  <["TRAVIS_PULL_REQUEST" := pr]>
    (<["TRAVIS_BRANCH" := branch]> (<["TRAVIS_TAG" := tag]> ∅)).

Definition setup_args (u ch : option string) : Namespace :=
  mkNamespace setup u ch None None None.

Definition build_args (p u k : option string) : Namespace :=
  mkNamespace build_mode None None p u k.

Definition initial (g : option Namespace) (env : gmap string string)
  : state nat :=
  mkState [] [] g env 0%nat.

(** A metadata reader that finds no recipe. *)
Definition pkg_path_unavailable (p : option string) (w : nat) : exn + string :=
  inl (ExternalError "no meta.yaml").


(** * Properties *)

Section Properties.

Context {World : Type}.
Variable spawn : list string -> World -> Z * string * World.
Variable expanduser : string -> string.
Variable bldpkg_path_MetaData : option string -> World -> exn + string.

Implicit Types (s : state World) (cmd : list string).
Implicit Types (cmds : list (list string)) (verbose : bool).

(** ** The command runner and the sequencer *)

Lemma execute_exit_zero cmd verbose s out w :
  spawn cmd (world s) = (0%Z, out, w) ->
  execute spawn cmd verbose s =
    (Return out,
     mkState (stdout s ++ (if verbose then transcript [cmd] [out] else []))
             (calls s ++ [via_co cmd]) (ns s) (environ s) w).
Proof.
  intros Hsp. unfold execute, bind, co.
  destruct verbose; cbn; rewrite Hsp; cbn.
  - rewrite <- app_assoc. reflexivity.
  - rewrite app_nil_r. reflexivity.
Qed.

Lemma execute_exit_nonzero cmd verbose s rc out w :
  spawn cmd (world s) = (rc, out, w) -> rc <> 0%Z ->
  execute spawn cmd verbose s =
    (Raise (CalledProcessError rc cmd (Some out)),
     mkState (stdout s ++ (if verbose then ["> " +:+ join " " cmd] else []))
             (calls s ++ [via_co cmd]) (ns s) (environ s) w).
Proof.
  intros Hsp Hrc. apply Z.eqb_neq in Hrc. unfold execute, bind, co.
  destruct verbose; cbn; rewrite Hsp, Hrc; cbn.
  - reflexivity.
  - rewrite app_nil_r. reflexivity.
Qed.

Lemma execute_each_exit_zero cmds verbose : forall s outs w,
  exit_zero spawn cmds (world s) = Some (outs, w) ->
  execute_each spawn cmds verbose s =
    (Return tt,
     mkState (stdout s ++ (if verbose then transcript cmds outs else []))
             (calls s ++ map via_co cmds) (ns s) (environ s) w).
Proof.
  induction cmds as [|cmd rest IH]; intros s outs w Hz; cbn in Hz.
  - injection Hz as <- <-. cbn. destruct s, verbose; cbn;
      rewrite !app_nil_r; reflexivity.
  - destruct (spawn cmd (world s)) as [[rc out] w1] eqn:Hsp.
    destruct (rc =? 0)%Z eqn:Hrc; [|discriminate].
    apply Z.eqb_eq in Hrc; subst rc.
    destruct (exit_zero spawn rest w1) as [[outs1 w2]|] eqn:Hrest;
      [|discriminate].
    injection Hz as <- <-.
    cbn [execute_each]. unfold bind at 1.
    rewrite (execute_exit_zero _ _ _ _ _ Hsp).
    rewrite (IH _ outs1 w2) by exact Hrest.
    cbn. destruct verbose; cbn; rewrite <- !app_assoc; reflexivity.
Qed.

Lemma execute_each_first_failure pre cmd post verbose : forall s outs w rc out w',
  exit_zero spawn pre (world s) = Some (outs, w) ->
  spawn cmd w = (rc, out, w') -> rc <> 0%Z ->
  execute_each spawn (pre ++ cmd :: post) verbose s =
    (Raise (CalledProcessError rc cmd (Some out)),
     mkState (stdout s ++ (if verbose
                           then transcript pre outs ++ ["> " +:+ join " " cmd]
                           else []))
             (calls s ++ map via_co (pre ++ [cmd])) (ns s) (environ s) w').
Proof.
  induction pre as [|c0 pre IH]; intros s outs w rc out w' Hz Hsp Hrc;
    cbn in Hz.
  - injection Hz as <- <-. cbn [app execute_each]. unfold bind.
    rewrite (execute_exit_nonzero _ _ _ _ _ _ Hsp Hrc). reflexivity.
  - destruct (spawn c0 (world s)) as [[rc0 out0] w1] eqn:Hsp0.
    destruct (rc0 =? 0)%Z eqn:Hrc0; [|discriminate].
    apply Z.eqb_eq in Hrc0; subst rc0.
    destruct (exit_zero spawn pre w1) as [[outs1 w2]|] eqn:Hrest;
      [|discriminate].
    injection Hz as <- <-.
    cbn [app execute_each]. unfold bind at 1.
    rewrite (execute_exit_zero _ _ _ _ _ Hsp0).
    rewrite (IH _ outs1 w2 rc out w') by (cbn; assumption).
    cbn. destruct verbose; cbn; rewrite <- !app_assoc; reflexivity.
Qed.

Lemma execute_sequence_exit_zero cmds kw s outs w :
  exit_zero spawn cmds (world s) = Some (outs, w) ->
  execute_sequence spawn cmds kw s =
    (Return tt,
     mkState (stdout s ++ (if default true kw then transcript cmds outs
                           else []))
             (calls s ++ map via_co cmds) (ns s) (environ s) w).
Proof.
  intros Hz. unfold execute_sequence, try_except_CalledProcessError.
  rewrite (execute_each_exit_zero _ _ _ _ _ Hz). reflexivity.
Qed.

Lemma execute_sequence_first_failure pre cmd post kw s outs w rc out w' :
  exit_zero spawn pre (world s) = Some (outs, w) ->
  spawn cmd w = (rc, out, w') -> rc <> 0%Z ->
  execute_sequence spawn (pre ++ cmd :: post) kw s =
    (Raise (CalledProcessError rc cmd (Some out)),
     mkState (stdout s
                ++ (if default true kw
                    then transcript pre outs ++ ["> " +:+ join " " cmd]
                    else [])
                ++ [" -> " +:+ out])
             (calls s ++ map via_co (pre ++ [cmd])) (ns s) (environ s) w').
Proof.
  intros Hz Hsp Hrc. unfold execute_sequence, try_except_CalledProcessError.
  rewrite (execute_each_first_failure _ _ _ _ _ _ _ _ _ _ Hz Hsp Hrc).
  cbn. rewrite <- app_assoc. reflexivity.
Qed.

(** A list of commands either runs through, or has a first command that
    exits with a non-zero status. *)
Lemma exit_zero_or_first_failure cmds : forall w,
  (exists outs w', exit_zero spawn cmds w = Some (outs, w')) \/
  (exists pre cmd post outs w1 rc out w2,
      cmds = pre ++ cmd :: post /\
      exit_zero spawn pre w = Some (outs, w1) /\
      spawn cmd w1 = (rc, out, w2) /\ rc <> 0%Z).
Proof.
  induction cmds as [|c rest IH]; intros w.
  - left. exists [], w. reflexivity.
  - destruct (spawn c w) as [[rc out] w1] eqn:Hsp.
    destruct (rc =? 0)%Z eqn:Hrc.
    + destruct (IH w1) as [(outs & w' & Hz)
                          |(pre & cmd & post & outs & w2 & rc' & out' & w3
                            & -> & Hz & Hsp' & Hne)].
      * left. exists (out :: outs), w'. cbn. rewrite Hsp, Hrc, Hz.
        reflexivity.
      * right. exists (c :: pre), cmd, post, (out :: outs), w2, rc', out', w3.
        repeat split; try assumption. cbn. rewrite Hsp, Hrc, Hz.
        reflexivity.
    + right. exists [], c, rest, [], w, rc, out, w1.
      repeat split; try assumption. apply Z.eqb_neq. exact Hrc.
Qed.

Lemma filter_via_check_map_via_co cmds :
  List.filter is_via_check (map via_co cmds) = [].
Proof. induction cmds; [reflexivity | assumption]. Qed.

(** The sequencer starts a prefix of its commands, in order and through
    [co] only; it only adds to standard output and leaves [ns] and the
    environment alone. *)
Lemma execute_sequence_frame cmds kw s :
  exists k printed,
    calls (snd (execute_sequence spawn cmds kw s))
      = calls s ++ map via_co (take k cmds)
    /\ stdout (snd (execute_sequence spawn cmds kw s)) = stdout s ++ printed
    /\ ns (snd (execute_sequence spawn cmds kw s)) = ns s
    /\ environ (snd (execute_sequence spawn cmds kw s)) = environ s.
Proof.
  destruct (exit_zero_or_first_failure cmds (world s))
    as [(outs & w' & Hz)
       |(pre & cmd & post & outs & w1 & rc & out & w2 & -> & Hz & Hsp & Hne)].
  - rewrite (execute_sequence_exit_zero _ _ _ _ _ Hz). cbn.
    exists (length cmds). eexists. rewrite firstn_all. auto.
  - rewrite (execute_sequence_first_failure _ _ _ _ _ _ _ _ _ _ Hz Hsp Hne).
    cbn. exists (length (pre ++ [cmd])). eexists.
    replace (pre ++ cmd :: post) with ((pre ++ [cmd]) ++ post)
      by (rewrite <- app_assoc; reflexivity).
    rewrite take_app_length. auto.
Qed.

Lemma execute_sequence_no_check cmds kw s :
  List.filter is_via_check (calls (snd (execute_sequence spawn cmds kw s)))
    = List.filter is_via_check (calls s).
Proof.
  destruct (execute_sequence_frame cmds kw s) as (k & pr & -> & _).
  rewrite List.filter_app, filter_via_check_map_via_co, app_nil_r.
  reflexivity.
Qed.

(** Name what the sequencer call in the goal starts and prints. *)
Ltac sequencer_frame k printed Hcalls Hout :=
  match goal with
  | |- context [execute_sequence ?sp ?cs ?kw ?s0] =>
      destruct (execute_sequence_frame cs kw s0)
        as (k & printed & Hcalls & Hout & _)
  end.

Lemma build_frame path s :
  List.filter is_via_check (calls (snd (build spawn expanduser path s)))
    = List.filter is_via_check (calls s).
Proof.
  destruct path as [p|]; [|reflexivity].
  apply execute_sequence_no_check.
Qed.

(** ** The publisher *)

Lemma binstar_upload_exit_zero key user channel path s out w :
  spawn [binstar expanduser; "-t"; key; "upload"; "--force"; "-u"; user;
         "-c"; channel; path] (world s) = (0%Z, out, w) ->
  binstar_upload spawn expanduser key user channel path s =
    (Return tt,
     mkState (stdout s ++ [out])
             (calls s ++ [via_check [binstar expanduser; "-t"; key; "upload";
                                     "--force"; "-u"; user; "-c"; channel;
                                     path]])
             (ns s) (environ s) w).
Proof.
  intros Hsp.
  unfold binstar_upload, try_except_CalledProcessError, check.
  rewrite Hsp. reflexivity.
Qed.

Lemma binstar_upload_exit_nonzero key user channel path s rc out w :
  spawn [binstar expanduser; "-t"; key; "upload"; "--force"; "-u"; user;
         "-c"; channel; path] (world s) = (rc, out, w) ->
  rc <> 0%Z ->
  binstar_upload spawn expanduser key user channel path s =
    (Raise (CalledProcessError rc
              [binstar expanduser; "-t"; "BINSTAR_KEY"; "upload"; "--force";
               "-u"; user; "-c"; channel; path] None),
     mkState (stdout s ++ [out])
             (calls s ++ [via_check [binstar expanduser; "-t"; key; "upload";
                                     "--force"; "-u"; user; "-c"; channel;
                                     path]])
             (ns s) (environ s) w).
Proof.
  intros Hsp Hrc. apply Z.eqb_neq in Hrc.
  unfold binstar_upload, try_except_CalledProcessError, check.
  rewrite Hsp, Hrc. reflexivity.
Qed.

(** ** The upload gate *)

(** C1. Channel resolution: when the tag is non-empty and equals the
    branch, the channel is ["main"]; when the tag is empty or differs
    from the branch, the channel is the branch string itself, the empty
    string included. *)
Theorem resolve_channel_main_or_branch s (branch tag : string) :
  environ s !! "TRAVIS_BRANCH" = Some branch ->
  environ s !! "TRAVIS_TAG" = Some tag ->
  (tag <> EmptyString /\ tag = branch ->
     fst (resolve_channel_from_travis_state s) = Return "main") /\
  (tag = EmptyString \/ tag <> branch ->
     fst (resolve_channel_from_travis_state s) = Return branch).
Proof.
  intros Hb Ht.
  unfold resolve_channel_from_travis_state, bind, os_environ.
  rewrite Hb; cbn [environ print fst snd]; rewrite Ht.
  split.
  - intros [Hne ->].
    apply String.eqb_neq in Hne. rewrite Hne, String.eqb_refl. reflexivity.
  - intros [-> | Hne].
    + reflexivity.
    + assert (String.eqb branch tag = false) as ->
        by (apply String.eqb_neq; congruence).
      rewrite andb_false_r. reflexivity.
Qed.

(** C2. Upload eligibility: with the pull-request indicator present, the
    answer is the negation of the comparison of the indicator with the
    literal ["true"]: [False] for ["true"] and [True] for any other
    string. *)
Theorem resolve_can_upload_is_not_pr s (pr : string) :
  environ s !! "TRAVIS_PULL_REQUEST" = Some pr ->
  fst (resolve_can_upload_from_travis s) = Return (negb (String.eqb pr "true"))
  /\ (pr = "true" -> fst (resolve_can_upload_from_travis s) = Return false)
  /\ (pr <> "true" -> fst (resolve_can_upload_from_travis s) = Return true).
Proof.
  intros Hpr.
  assert (fst (resolve_can_upload_from_travis s)
          = Return (negb (String.eqb pr "true"))) as Heq.
  { unfold resolve_can_upload_from_travis, bind, os_environ.
    rewrite Hpr. reflexivity. }
  rewrite Heq. split; [reflexivity | split].
  - intros ->. reflexivity.
  - intros Hne. apply String.eqb_neq in Hne. rewrite Hne. reflexivity.
Qed.

(** ** Claims on the sequencer and the orchestration *)

(** C5. Command sequencer, called without the [verbose] keyword.  When
    the commands [pre] all exit with status 0 and the next command [cmd]
    does not: the processes started are [pre] then [cmd], in that order,
    and none of [post]; each started command was echoed and each
    finished one had its output printed (verbosity is on); one more line
    holding the captured output of [cmd] is printed; and the error
    raised is the one the runner raised for [cmd].  A list whose
    commands all exit with status 0 is run whole, in order. *)
Theorem execute_sequence_in_order_fail_fast
    s pre cmd post outs w rc out w' :
  exit_zero spawn pre (world s) = Some (outs, w) ->
  spawn cmd w = (rc, out, w') ->
  rc <> 0%Z ->
  execute_sequence spawn (pre ++ cmd :: post) None s =
    (Raise (CalledProcessError rc cmd (Some out)),
     mkState (stdout s ++ (transcript pre outs ++ ["> " +:+ join " " cmd])
                ++ [" -> " +:+ out])
             (calls s ++ map via_co (pre ++ [cmd])) (ns s) (environ s) w')
  /\ (forall s_mid, world s_mid = w ->
        fst (execute spawn cmd true s_mid)
        = Raise (CalledProcessError rc cmd (Some out)))
  /\ execute_sequence spawn pre None s =
       (Return tt,
        mkState (stdout s ++ transcript pre outs)
                (calls s ++ map via_co pre) (ns s) (environ s) w).
Proof.
  intros Hz Hsp Hrc.
  pose proof (execute_sequence_first_failure pre cmd post None s
                outs w rc out w' Hz Hsp Hrc) as Hfail.
  split; [exact Hfail | split].
  - intros s_mid <-.
    rewrite (execute_exit_nonzero _ _ _ _ _ _ Hsp Hrc). reflexivity.
  - exact (execute_sequence_exit_zero pre None s outs w Hz).
Qed.

(** C3. Build and upload without credentials.  When [user] or [key] is
    [None], no process is ever started through [check], the only way the
    publisher starts one, whatever the environment says and whether or
    not the build succeeds.  And once the build step has returned, the
    function names each missing credential, prints that it cannot
    upload, and returns normally, starting no further process. *)
Theorem build_and_upload_without_credentials s path user key :
  user = None \/ key = None ->
  List.filter is_via_check
    (calls (snd (build_and_upload spawn expanduser bldpkg_path_MetaData
                   path user key s)))
    = List.filter is_via_check (calls s)
  /\ forall n s1,
       ns s = Some n ->
       build spawn expanduser path
         (snd (print ("Building package at path " +:+ format_opt (ns_path n))
                 s)) = (Return tt, s1) ->
       build_and_upload spawn expanduser bldpkg_path_MetaData
         path user key s =
         (Return tt,
          mkState (stdout s1
                     ++ (if key is None then ["No binstar key provided"]
                         else [])
                     ++ (if user is None then ["No binstar user provided"]
                         else [])
                     ++ ["-> Unable to upload to binstar"])
                  (calls s1) (ns s1) (environ s1) (world s1)).
Proof.
  intros Hmissing. split.
  - unfold build_and_upload, bind, global_ns.
    destruct (ns s) as [n|]; [|reflexivity].
    cbn [print fst snd]. set (s0 := mkState _ _ _ _ _).
    pose proof (build_frame path s0) as Hc.
    destruct (build spawn expanduser path s0) as [[[]|e] s1];
      cbn in Hc; [|exact Hc].
    destruct Hmissing as [-> | ->]; [destruct key | destruct user];
      cbn; exact Hc.
  - intros n s1 Hns Hbuild.
    unfold build_and_upload, bind, global_ns. rewrite Hns.
    cbn [print fst snd] in Hbuild |- *. rewrite Hbuild.
    destruct s1. 
    destruct Hmissing as [-> | ->]; [destruct key | destruct user];
      cbn; rewrite <- ?app_assoc; reflexivity.
Qed.

(** C4, as amended.  When the upload process exits with a non-zero
    status, the error raised by the publisher has that status, no
    output, and the argument list of the call with position 2 holding
    ["BINSTAR_KEY"] and every other position as it was.  The key then
    occurs in no field of the error as long as it occurs in none of the
    remaining tokens: the program path, the fixed options, the
    placeholder, the user, the channel and the package path. *)
Theorem binstar_upload_masks_key_position
    key user channel path s rc out w :
  spawn [binstar expanduser; "-t"; key; "upload"; "--force"; "-u"; user;
         "-c"; channel; path] (world s) = (rc, out, w) ->
  rc <> 0%Z ->
  exists e,
    fst (binstar_upload spawn expanduser key user channel path s) = Raise e
    /\ exn_returncode e = Some rc
    /\ exn_output e = None
    /\ exn_cmd e =
         Some (<[2%nat := "BINSTAR_KEY"]>
                 [binstar expanduser; "-t"; key; "upload"; "--force"; "-u";
                  user; "-c"; channel; path])
    /\ exn_cmd e =
         Some [binstar expanduser; "-t"; "BINSTAR_KEY"; "upload"; "--force";
               "-u"; user; "-c"; channel; path]
    /\ (existsb (contains_string key)
           [binstar expanduser; "-t"; "BINSTAR_KEY"; "upload"; "--force";
            "-u"; user; "-c"; channel; path] = false ->
        mentions key e = false).
Proof.
  intros Hsp Hrc.
  rewrite (binstar_upload_exit_nonzero _ _ _ _ _ _ _ _ Hsp Hrc).
  eexists. split; [reflexivity|].
  repeat split. cbn [mentions]. intros ->. reflexivity.
Qed.

(** C6, as amended.  A command that fails under the runner or the
    sequencer raises a [CalledProcessError] carrying its exit status,
    its full argument list (program name first) and the captured
    output.  A failed upload raises a [CalledProcessError] carrying the
    exit status and the argument list with the key position masked, and
    no output. *)
Theorem failures_are_CalledProcessError s :
  (forall cmd verbose rc out w,
      spawn cmd (world s) = (rc, out, w) -> rc <> 0%Z ->
      fst (execute spawn cmd verbose s)
        = Raise (CalledProcessError rc cmd (Some out)))
  /\ (forall pre cmd post kw outs w rc out w',
        exit_zero spawn pre (world s) = Some (outs, w) ->
        spawn cmd w = (rc, out, w') -> rc <> 0%Z ->
        fst (execute_sequence spawn (pre ++ cmd :: post) kw s)
          = Raise (CalledProcessError rc cmd (Some out)))
  /\ (forall key user channel path rc out w,
        spawn [binstar expanduser; "-t"; key; "upload"; "--force"; "-u";
               user; "-c"; channel; path] (world s) = (rc, out, w) ->
        rc <> 0%Z ->
        fst (binstar_upload spawn expanduser key user channel path s)
          = Raise (CalledProcessError rc
                     [binstar expanduser; "-t"; "BINSTAR_KEY"; "upload";
                      "--force"; "-u"; user; "-c"; channel; path] None)).
Proof.
  split; [|split].
  - intros cmd verbose rc out w Hsp Hrc.
    rewrite (execute_exit_nonzero _ _ _ _ _ _ Hsp Hrc). reflexivity.
  - intros pre cmd post kw outs w rc out w' Hz Hsp Hrc.
    rewrite (execute_sequence_first_failure _ _ _ _ _ _ _ _ _ _ Hz Hsp Hrc).
    reflexivity.
  - intros key user channel path rc out w Hsp Hrc.
    rewrite (binstar_upload_exit_nonzero _ _ _ _ _ _ _ _ Hsp Hrc).
    reflexivity.
Qed.

(** C7, as amended.  The runner starts its process through [co] and
    returns the captured output.  The provisioner and the builder start
    processes through the runner only, a prefix of their command list in
    order.  The publisher does not go through the runner: it starts its
    one process through [check], which captures nothing (the child's
    output goes straight to standard output) and returns no output. *)
Theorem processes_started_by_each_component s :
  (forall cmd verbose out w,
      spawn cmd (world s) = (0%Z, out, w) ->
      fst (execute spawn cmd verbose s) = Return out
      /\ calls (snd (execute spawn cmd verbose s)) = calls s ++ [via_co cmd])
  /\ (forall url channel, exists started,
        calls (snd (setup_miniconda spawn expanduser url channel s))
          = calls s ++ map via_co started)
  /\ (forall path, exists started,
        calls (snd (build spawn expanduser path s))
          = calls s ++ map via_co started)
  /\ (forall key user channel path,
        calls (snd (binstar_upload spawn expanduser key user channel path s))
          = calls s ++ [via_check [binstar expanduser; "-t"; key; "upload";
                                   "--force"; "-u"; user; "-c"; channel;
                                   path]]
        /\ stdout (snd (binstar_upload spawn expanduser key user channel
                          path s))
          = stdout s ++ [snd (fst (spawn [binstar expanduser; "-t"; key;
                                          "upload"; "--force"; "-u"; user;
                                          "-c"; channel; path] (world s)))]).
Proof.
  split; [|split; [|split]].
  - intros cmd verbose out w Hsp.
    rewrite (execute_exit_zero _ _ _ _ _ Hsp). split; reflexivity.
  - intros url channel. unfold setup_miniconda, bind, global_ns.
    destruct (ns s) as [n|]; [|exists []; cbn; rewrite app_nil_r; reflexivity].
    destruct channel as [ch|]; cbn [print fst snd];
      sequencer_frame k pr Hc Hout; eexists; exact Hc.
  - intros [p|]; cbn [build].
    + destruct (execute_sequence_frame [[conda expanduser; "build"; "-q"; p]]
                  None s) as (k & pr & Hc & _).
      eexists. exact Hc.
    + exists []. cbn. rewrite app_nil_r. reflexivity.
  - intros key user channel path.
    destruct (spawn [binstar expanduser; "-t"; key; "upload"; "--force";
                     "-u"; user; "-c"; channel; path] (world s))
      as [[rc out] w] eqn:Hsp.
    destruct (Z.eq_dec rc 0%Z) as [-> | Hrc].
    + rewrite (binstar_upload_exit_zero _ _ _ _ _ _ _ Hsp).
      split; reflexivity.
    + rewrite (binstar_upload_exit_nonzero _ _ _ _ _ _ _ _ Hsp Hrc).
      split; reflexivity.
Qed.

(** ** Claims on the provisioner and the entry point *)

(** C8. Environment provisioner, called with [ns] bound.  The command
    list it hands to the sequencer is: the download of [url] to
    [miniconda.sh]; the installer in batch mode into [miniconda_dir];
    the quiet update of conda; the quiet install of conda-build, jinja2
    and binstar; and, last, the registration of the channel exactly when
    one is given.  Without a channel it prints that all dependencies
    have to come from anaconda.  The processes started are always a
    prefix of that list, in order, and the whole list when every command
    exits with status 0. *)
Theorem setup_miniconda_command_list s n url channel :
  ns s = Some n ->
  let cmds :=
    [ ["wget"; "-nv"; url; "-O"; "miniconda.sh"];
      ["python"; "miniconda.sh"; "-b"; "-p"; miniconda_dir expanduser];
      [conda expanduser; "update"; "-q"; "--yes"; "conda"];
      [conda expanduser; "install"; "-q"; "--yes"; "conda-build"; "jinja2";
       "binstar"] ]
    ++ (if channel is Some ch
        then [[conda expanduser; "config"; "--add"; "channels"; ch]]
        else []) in
  let banner :=
    [ "Setting up miniconda from URL " +:+ format_opt (ns_path n);
      if channel is Some ch
      then "(adding channel '" +:+ ch +:+ "' for dependencies)"
      else "No channels have been configured (all dependencies have to be sourceble from anaconda)" ] in
  setup_miniconda spawn expanduser url channel s =
    execute_sequence spawn cmds None
      (mkState (stdout s ++ banner) (calls s) (ns s) (environ s) (world s))
  /\ (exists k,
        calls (snd (setup_miniconda spawn expanduser url channel s))
          = calls s ++ map via_co (take k cmds))
  /\ (forall outs w,
        exit_zero spawn cmds (world s) = Some (outs, w) ->
        setup_miniconda spawn expanduser url channel s =
          (Return tt,
           mkState (stdout s ++ banner ++ transcript cmds outs)
                   (calls s ++ map via_co cmds) (ns s) (environ s) w)).
Proof.
  intros Hns cmds banner.
  assert (setup_miniconda spawn expanduser url channel s =
          execute_sequence spawn cmds None
            (mkState (stdout s ++ banner) (calls s) (ns s) (environ s)
                     (world s))) as Heq.
  { unfold setup_miniconda, bind, global_ns. rewrite Hns.
    subst cmds banner.
    destruct channel as [ch|];
      cbn [print fst snd stdout calls ns environ world];
      rewrite <- ?app_assoc, ?Hns; reflexivity. }
  rewrite Heq. split; [reflexivity | split].
  - destruct (execute_sequence_frame cmds None
                (mkState (stdout s ++ banner) (calls s) (ns s) (environ s)
                         (world s))) as (k & pr & Hc & _).
    exists k. exact Hc.
  - intros outs w Hz.
    rewrite (execute_sequence_exit_zero cmds None _ outs w) by exact Hz.
    cbn. rewrite <- app_assoc. reflexivity.
Qed.

(** C9. Entry point in setup mode.  Without [--url] a [ValueError] is
    raised with no process started and nothing printed, and the exit
    status is not 0.  With [--url] the provisioner runs with that URL
    and the channel option as given. *)
Theorem main_setup_requires_url s parsed :
  ns_mode parsed = setup ->
  (ns_url parsed = None ->
     main spawn expanduser bldpkg_path_MetaData parsed s =
       (Raise (ValueError
                 "You must provide a miniconda URL for the setup command"),
        mkState (stdout s) (calls s) (Some parsed) (environ s) (world s))
     /\ exit_status
          (fst (main spawn expanduser bldpkg_path_MetaData parsed s)) <> 0%Z)
  /\ (forall u, ns_url parsed = Some u ->
        main spawn expanduser bldpkg_path_MetaData parsed s =
          setup_miniconda spawn expanduser u (ns_channel parsed)
            (mkState (stdout s) (calls s) (Some parsed) (environ s)
                     (world s))).
Proof.
  intros Hmode. unfold main, bind, assign_ns. rewrite Hmode. split.
  - intros ->. split; [reflexivity | discriminate].
  - intros u ->. reflexivity.
Qed.

(** C10. The provisioner and the orchestration read the global [ns] in
    their first statement: with [ns] unbound both raise [NameError]
    with nothing printed and no process started.  With [ns] bound, the
    first line the provisioner prints is built from [ns.path], whatever
    the [url] argument; run from the entry point in setup mode without
    [--path], that line ends in [None]. *)
Theorem functions_read_global_ns s :
  (ns s = None ->
     forall u ch path user key,
       setup_miniconda spawn expanduser u ch s = (Raise (NameError "ns"), s)
       /\ build_and_upload spawn expanduser bldpkg_path_MetaData
            path user key s = (Raise (NameError "ns"), s))
  /\ (forall n u ch,
        ns s = Some n ->
        exists printed,
          stdout (snd (setup_miniconda spawn expanduser u ch s))
            = stdout s
                ++ ("Setting up miniconda from URL " +:+ format_opt (ns_path n))
                   :: printed)
  /\ (forall parsed u,
        ns_mode parsed = setup -> ns_url parsed = Some u ->
        ns_path parsed = None ->
        exists printed,
          stdout (snd (main spawn expanduser bldpkg_path_MetaData parsed s))
            = stdout s ++ "Setting up miniconda from URL None" :: printed).
Proof.
  assert (forall s0 n u ch, ns s0 = Some n ->
            exists printed,
              stdout (snd (setup_miniconda spawn expanduser u ch s0))
              = stdout s0
                  ++ ("Setting up miniconda from URL "
                        +:+ format_opt (ns_path n)) :: printed) as Hfirst.
  { intros s0 n u ch Hns. unfold setup_miniconda, bind, global_ns.
    rewrite Hns.
    destruct ch as [c|]; cbn [print fst snd];
      sequencer_frame k pr Hc Hout;
      rewrite Hout; cbn [stdout]; rewrite <- !app_assoc;
      eexists; reflexivity. }
  split; [|split].
  - intros Hns u ch path user key.
    unfold setup_miniconda, build_and_upload, bind, global_ns.
    rewrite Hns. split; reflexivity.
  - intros n u ch Hns. exact (Hfirst s n u ch Hns).
  - intros parsed u Hmode Hurl Hpath.
    unfold main, bind, assign_ns. rewrite Hmode, Hurl.
    destruct (Hfirst (mkState (stdout s) (calls s) (Some parsed) (environ s)
                              (world s)) parsed u (ns_channel parsed)
                eq_refl) as [printed Hp].
    rewrite Hpath in Hp. exists printed. exact Hp.
Qed.

(** * Further properties of the script *)

(** ** The command runner *)

(** X1. The runner starts exactly one process, through [co], whatever
    the verbosity and the exit status; verbosity changes neither the
    result nor the world; a quiet run prints nothing; a verbose run
    prints the echo of the command before the process is started, and
    the output after it only when the exit status is 0. *)
Theorem execute_one_process_any_verbosity cmd verbose s :
  calls (snd (execute spawn cmd verbose s)) = calls s ++ [via_co cmd]
  /\ world (snd (execute spawn cmd verbose s)) = snd (spawn cmd (world s))
  /\ fst (execute spawn cmd verbose s) = fst (execute spawn cmd false s)
  /\ stdout (snd (execute spawn cmd false s)) = stdout s
  /\ stdout (snd (execute spawn cmd true s))
     = stdout s
         ++ ("> " +:+ join " " cmd)
            :: (if (fst (fst (spawn cmd (world s))) =? 0)%Z
                then [snd (fst (spawn cmd (world s)))] else []).
Proof.
  destruct (spawn cmd (world s)) as [[rc out] w] eqn:Hsp.
  destruct (Z.eq_dec rc 0%Z) as [-> | Hrc].
  - rewrite !(execute_exit_zero _ _ _ _ _ Hsp). cbn.
    rewrite app_nil_r. repeat split; reflexivity.
  - rewrite !(execute_exit_nonzero _ _ _ _ _ _ Hsp Hrc). cbn.
    apply Z.eqb_neq in Hrc. rewrite Hrc, app_nil_r.
    repeat split; reflexivity.
Qed.

(** ** The sequencer *)

Lemma execute_each_app pre rest verbose s :
  execute_each spawn (pre ++ rest) verbose s =
    bind (execute_each spawn pre verbose)
         (fun _ => execute_each spawn rest verbose) s.
Proof.
  revert s. induction pre as [|c pre IH]; intros s.
  - reflexivity.
  - cbn [app execute_each]. unfold bind.
    destruct (execute spawn c verbose s) as [[a|e] s1]; [|reflexivity].
    rewrite IH. reflexivity.
Qed.

(** X2. Sequencing composes: running [pre ++ rest] is running [pre] and,
    when that returns, running [rest] from the state it left; when
    [pre] raises, [rest] changes nothing: same error, same state. *)
Theorem execute_sequence_app pre rest kw s :
  execute_sequence spawn (pre ++ rest) kw s =
    match execute_sequence spawn pre kw s with
    | (Return _, s1) => execute_sequence spawn rest kw s1
    | (Raise e, s1) => (Raise e, s1)
    end.
Proof.
  unfold execute_sequence, try_except_CalledProcessError.
  rewrite execute_each_app. unfold bind at 1.
  destruct (execute_each spawn pre (default true kw) s) as [[[]|e] s1].
  - reflexivity.
  - destruct (is_CalledProcessError e); reflexivity.
Qed.


(** X4. Verbosity only prints.  Passing [verbose=True] is the same as
    passing nothing; passing [verbose=False] gives the same result, the
    same processes and the same world as the default. *)
Theorem execute_sequence_verbosity_only_prints cmds s :
  execute_sequence spawn cmds (Some true) s = execute_sequence spawn cmds None s
  /\ fst (execute_sequence spawn cmds (Some false) s)
     = fst (execute_sequence spawn cmds None s)
  /\ calls (snd (execute_sequence spawn cmds (Some false) s))
     = calls (snd (execute_sequence spawn cmds None s))
  /\ world (snd (execute_sequence spawn cmds (Some false) s))
     = world (snd (execute_sequence spawn cmds None s)).
Proof.
  split; [reflexivity|].
  destruct (exit_zero_or_first_failure cmds (world s))
    as [(outs & w' & Hz)
       |(pre & cmd & post & outs & w1 & rc & out & w2 & -> & Hz & Hsp & Hne)].
  - rewrite !(execute_sequence_exit_zero _ _ _ _ _ Hz).
    repeat split; reflexivity.
  - rewrite !(execute_sequence_first_failure _ _ _ _ _ _ _ _ _ _ Hz Hsp Hne).
    repeat split; reflexivity.
Qed.

(** X5. A quiet sequence still reports a failure: with [verbose=False]
    the only line printed is the diagnostic holding the captured output
    of the failing command; a quiet prefix that succeeds prints
    nothing. *)
Theorem execute_sequence_quiet_diagnostic
    s pre cmd post outs w rc out w' :
  exit_zero spawn pre (world s) = Some (outs, w) ->
  spawn cmd w = (rc, out, w') ->
  rc <> 0%Z ->
  stdout (snd (execute_sequence spawn (pre ++ cmd :: post) (Some false) s))
    = stdout s ++ [" -> " +:+ out]
  /\ stdout (snd (execute_sequence spawn pre (Some false) s)) = stdout s.
Proof.
  intros Hz Hsp Hne.
  rewrite (execute_sequence_first_failure _ _ _ _ _ _ _ _ _ _ Hz Hsp Hne).
  rewrite (execute_sequence_exit_zero _ _ _ _ _ Hz).
  cbn. rewrite app_nil_r. split; reflexivity.
Qed.

(** ** The builder *)

Lemma build_exit_zero p s out w :
  spawn [conda expanduser; "build"; "-q"; p] (world s) = (0%Z, out, w) ->
  build spawn expanduser (Some p) s =
    (Return tt,
     mkState (stdout s
                ++ ["> " +:+ join " " [conda expanduser; "build"; "-q"; p];
                    out])
             (calls s ++ [via_co [conda expanduser; "build"; "-q"; p]])
             (ns s) (environ s) w).
Proof.
  intros Hsp. unfold build.
  rewrite (execute_sequence_exit_zero
             [[conda expanduser; "build"; "-q"; p]] None s [out] w);
    [reflexivity | cbn [exit_zero]; rewrite Hsp; reflexivity].
Qed.

Lemma build_exit_nonzero p s rc out w :
  spawn [conda expanduser; "build"; "-q"; p] (world s) = (rc, out, w) ->
  rc <> 0%Z ->
  build spawn expanduser (Some p) s =
    (Raise (CalledProcessError rc [conda expanduser; "build"; "-q"; p]
              (Some out)),
     mkState (stdout s
                ++ ["> " +:+ join " " [conda expanduser; "build"; "-q"; p];
                    " -> " +:+ out])
             (calls s ++ [via_co [conda expanduser; "build"; "-q"; p]])
             (ns s) (environ s) w).
Proof.
  intros Hsp Hrc. unfold build.
  pose proof (execute_sequence_first_failure
                [] [conda expanduser; "build"; "-q"; p] [] None s []
                (world s) rc out w eq_refl Hsp Hrc) as Hrun.
  cbn [app] in Hrun. rewrite Hrun.
  cbn. rewrite <- ?app_assoc. reflexivity.
Qed.

(** X6. The builder starts the one process [conda build -q path],
    through the runner and verbosely, whatever its exit status.  On
    status 0 the echo and the output are printed and the builder
    returns; otherwise the echo and the diagnostic line are printed and
    the [CalledProcessError] of the command, with its output, is
    raised. *)
Theorem build_runs_conda_build p s :
  let cmd := [conda expanduser; "build"; "-q"; p] in
  calls (snd (build spawn expanduser (Some p) s)) = calls s ++ [via_co cmd]
  /\ build spawn expanduser (Some p) s =
     let '(rc, out, w) := spawn cmd (world s) in
     if (rc =? 0)%Z
     then (Return tt,
           mkState (stdout s ++ ["> " +:+ join " " cmd; out])
                   (calls s ++ [via_co cmd]) (ns s) (environ s) w)
     else (Raise (CalledProcessError rc cmd (Some out)),
           mkState (stdout s ++ ["> " +:+ join " " cmd; " -> " +:+ out])
                   (calls s ++ [via_co cmd]) (ns s) (environ s) w).
Proof.
  intros cmd. subst cmd.
  destruct (spawn [conda expanduser; "build"; "-q"; p] (world s))
    as [[rc out] w] eqn:Hsp.
  destruct (Z.eq_dec rc 0%Z) as [-> | Hrc].
  - rewrite (build_exit_zero _ _ _ _ Hsp). split; reflexivity.
  - rewrite (build_exit_nonzero _ _ _ _ _ Hsp Hrc).
    apply Z.eqb_neq in Hrc. rewrite Hrc. split; reflexivity.
Qed.

(** ** The publisher, continued *)

(** X7. The publisher has two outcomes only: it returns when the upload
    process exits with status 0, and otherwise raises a
    [CalledProcessError] with that status, the masked argument list and
    no output.  The assignment at index 2 is always in range, so no
    [IndexError] comes out of it. *)
Theorem binstar_upload_outcomes key user channel path s :
  let rc := fst (fst (spawn [binstar expanduser; "-t"; key; "upload";
                             "--force"; "-u"; user; "-c"; channel; path]
                        (world s))) in
  (rc = 0%Z
   /\ fst (binstar_upload spawn expanduser key user channel path s)
      = Return tt)
  \/ (rc <> 0%Z
      /\ fst (binstar_upload spawn expanduser key user channel path s)
         = Raise (CalledProcessError rc
                    [binstar expanduser; "-t"; "BINSTAR_KEY"; "upload";
                     "--force"; "-u"; user; "-c"; channel; path] None)).
Proof.
  destruct (spawn [binstar expanduser; "-t"; key; "upload"; "--force";
                   "-u"; user; "-c"; channel; path] (world s))
    as [[rc out] w] eqn:Hsp.
  cbn [fst]. destruct (Z.eq_dec rc 0%Z) as [-> | Hrc].
  - left. rewrite (binstar_upload_exit_zero _ _ _ _ _ _ _ Hsp).
    split; reflexivity.
  - right. rewrite (binstar_upload_exit_nonzero _ _ _ _ _ _ _ _ Hsp Hrc).
    split; [assumption | reflexivity].
Qed.

(** ** The upload gate, continued *)

Lemma resolve_can_upload_run s pr :
  environ s !! "TRAVIS_PULL_REQUEST" = Some pr ->
  resolve_can_upload_from_travis s =
    (Return (negb (String.eqb pr "true")),
     mkState (stdout s
                ++ ["Can we can upload? : "
                      +:+ format_bool (negb (String.eqb pr "true"))])
             (calls s) (ns s) (environ s) (world s)).
Proof.
  intros Hpr. unfold resolve_can_upload_from_travis, bind, os_environ.
  rewrite Hpr. reflexivity.
Qed.

Lemma resolve_channel_run s branch tag :
  environ s !! "TRAVIS_BRANCH" = Some branch ->
  environ s !! "TRAVIS_TAG" = Some tag ->
  resolve_channel_from_travis_state s =
    (Return (if negb (String.eqb tag EmptyString) && String.eqb branch tag
             then "main" else branch),
     mkState (stdout s
                ++ ["Travis branch is " +:+ dquote +:+ branch +:+ dquote;
                    "Travis tag found is: " +:+ dquote +:+ tag +:+ dquote;
                    if negb (String.eqb tag EmptyString)
                       && String.eqb branch tag
                    then "on a tagged release -> upload to 'main'"
                    else "not on a tag on master - just upload to the branch name "
                           +:+ branch])
             (calls s) (ns s) (environ s) (world s)).
Proof.
  intros Hb Ht. unfold resolve_channel_from_travis_state, bind, os_environ.
  rewrite Hb, Ht.
  destruct (negb (String.eqb tag EmptyString) && String.eqb branch tag);
    cbn; rewrite <- !app_assoc; reflexivity.
Qed.

Lemma resolve_can_upload_missing s :
  environ s !! "TRAVIS_PULL_REQUEST" = None ->
  resolve_can_upload_from_travis s
    = (Raise (KeyError "TRAVIS_PULL_REQUEST"), s).
Proof.
  intros H. unfold resolve_can_upload_from_travis, bind, os_environ.
  rewrite H. reflexivity.
Qed.

Lemma resolve_channel_missing_branch s :
  environ s !! "TRAVIS_BRANCH" = None ->
  resolve_channel_from_travis_state s = (Raise (KeyError "TRAVIS_BRANCH"), s).
Proof.
  intros H. unfold resolve_channel_from_travis_state, bind, os_environ.
  rewrite H. reflexivity.
Qed.

Lemma resolve_channel_missing_tag s branch :
  environ s !! "TRAVIS_BRANCH" = Some branch ->
  environ s !! "TRAVIS_TAG" = None ->
  resolve_channel_from_travis_state s = (Raise (KeyError "TRAVIS_TAG"), s).
Proof.
  intros Hb Ht. unfold resolve_channel_from_travis_state, bind, os_environ.
  rewrite Hb, Ht. reflexivity.
Qed.

(** X8. A missing Travis variable is a [KeyError] naming it, raised
    before anything is printed: the state is left as it was.  The branch
    is looked up before the tag, so with both missing the error names
    the branch. *)
Theorem upload_gate_missing_variable s :
  (environ s !! "TRAVIS_PULL_REQUEST" = None ->
     resolve_can_upload_from_travis s
       = (Raise (KeyError "TRAVIS_PULL_REQUEST"), s))
  /\ (environ s !! "TRAVIS_BRANCH" = None ->
       resolve_channel_from_travis_state s
         = (Raise (KeyError "TRAVIS_BRANCH"), s))
  /\ (forall branch,
       environ s !! "TRAVIS_BRANCH" = Some branch ->
       environ s !! "TRAVIS_TAG" = None ->
       resolve_channel_from_travis_state s
         = (Raise (KeyError "TRAVIS_TAG"), s)).
Proof.
  split; [|split].
  - apply resolve_can_upload_missing.
  - apply resolve_channel_missing_branch.
  - intros branch. apply resolve_channel_missing_tag.
Qed.

(** X9. Which builds land on [main]: the tagged releases, and also every
    build of a branch that is itself named [main], tagged or not.  The
    channel is the empty string exactly when the branch is. *)
Theorem resolve_channel_main_iff s (branch tag : string) :
  environ s !! "TRAVIS_BRANCH" = Some branch ->
  environ s !! "TRAVIS_TAG" = Some tag ->
  (fst (resolve_channel_from_travis_state s) = Return "main"
   <-> (tag <> EmptyString /\ tag = branch) \/ branch = "main")
  /\ (fst (resolve_channel_from_travis_state s) = Return EmptyString
      <-> branch = EmptyString).
Proof.
  intros Hb Ht. rewrite (resolve_channel_run _ _ _ Hb Ht). cbn [fst].
  destruct (String.eqb_spec tag EmptyString) as [-> | Hte]; cbn [negb andb].
  - split; split.
    + intros [= ->]. right. reflexivity.
    + intros [[Hn _] | ->]; [contradiction | reflexivity].
    + intros [= ->]. reflexivity.
    + intros ->. reflexivity.
  - destruct (String.eqb_spec branch tag) as [-> | Hbt].
    + split; split.
      * intros _. left. split; [assumption | reflexivity].
      * reflexivity.
      * discriminate.
      * intros ->. contradiction.
    + split; split.
      * intros [= ->]. right. reflexivity.
      * intros [[_ ->] | ->]; [contradiction | reflexivity].
      * intros [= ->]. reflexivity.
      * intros ->. reflexivity.
Qed.

(** X10. The two gate functions only print: whatever the environment,
    they start no process and leave [ns], the environment and the world
    alone; the eligibility check prints at most one line, the channel
    resolution none or three. *)
Theorem upload_gate_only_prints s :
  (exists printed,
      snd (resolve_can_upload_from_travis s)
        = mkState (stdout s ++ printed) (calls s) (ns s) (environ s) (world s)
      /\ (length printed <= 1)%nat)
  /\ (exists printed,
        snd (resolve_channel_from_travis_state s)
          = mkState (stdout s ++ printed) (calls s) (ns s) (environ s)
                    (world s)
        /\ (printed = [] \/ length printed = 3%nat)).
Proof.
  assert (s = mkState (stdout s ++ []) (calls s) (ns s) (environ s) (world s))
    as Hs by (destruct s; cbn; rewrite app_nil_r; reflexivity).
  split.
  - destruct (environ s !! "TRAVIS_PULL_REQUEST") as [pr|] eqn:Hpr.
    + rewrite (resolve_can_upload_run _ _ Hpr). eexists.
      split; [reflexivity | cbn; lia].
    + rewrite (resolve_can_upload_missing _ Hpr). exists [].
      split; [exact Hs | cbn; lia].
  - destruct (environ s !! "TRAVIS_BRANCH") as [branch|] eqn:Hb.
    + destruct (environ s !! "TRAVIS_TAG") as [tag|] eqn:Ht.
      * rewrite (resolve_channel_run _ _ _ Hb Ht). eexists.
        split; [reflexivity | right; reflexivity].
      * rewrite (resolve_channel_missing_tag _ _ Hb Ht). exists [].
        split; [exact Hs | left; reflexivity].
    + rewrite (resolve_channel_missing_branch _ Hb). exists [].
      split; [exact Hs | left; reflexivity].
Qed.

(** ** The orchestration, continued *)

(** Run [build_and_upload] up to the end of a build that succeeded. *)
Ltac run_build Hns Hsp :=
  unfold build_and_upload, bind, global_ns; rewrite Hns;
  cbn [print fst snd];
  match goal with
  | |- context [build spawn expanduser (Some ?p) ?s0] =>
      rewrite (build_exit_zero p s0 _ _ Hsp)
  end;
  cbn [ret print fst snd stdout calls ns environ world].

(** X11. A failed build stops everything: the [CalledProcessError] of
    [conda build] is raised with its output, the only process started
    is the build, and the Travis variables are never looked up,
    whatever the credentials and the environment. *)
Theorem build_and_upload_build_fails n p user key s rc out w :
  ns s = Some n ->
  spawn [conda expanduser; "build"; "-q"; p] (world s) = (rc, out, w) ->
  rc <> 0%Z ->
  build_and_upload spawn expanduser bldpkg_path_MetaData
    (Some p) user key s =
    (Raise (CalledProcessError rc [conda expanduser; "build"; "-q"; p]
              (Some out)),
     mkState (stdout s
                ++ ["Building package at path " +:+ format_opt (ns_path n);
                    "> " +:+ join " " [conda expanduser; "build"; "-q"; p];
                    " -> " +:+ out])
             (calls s ++ [via_co [conda expanduser; "build"; "-q"; p]])
             (ns s) (environ s) w).
Proof.
  intros Hns Hsp Hrc.
  unfold build_and_upload, bind, global_ns. rewrite Hns.
  cbn [print fst snd].
  match goal with
  | |- context [build spawn expanduser (Some p) ?s0] =>
      rewrite (build_exit_nonzero p s0 rc out w Hsp Hrc)
  end.
  cbn [stdout calls ns environ world]. rewrite <- app_assoc, Hns.
  reflexivity.
Qed.

(** X12. A pull-request build with both credentials is built and not
    uploaded: after the eligibility line the function returns, the
    build being the only process started; the branch and the tag are
    not looked up. *)
Theorem build_and_upload_pull_request n p u k s out w :
  ns s = Some n ->
  spawn [conda expanduser; "build"; "-q"; p] (world s) = (0%Z, out, w) ->
  environ s !! "TRAVIS_PULL_REQUEST" = Some "true" ->
  build_and_upload spawn expanduser bldpkg_path_MetaData
    (Some p) (Some u) (Some k) s =
    (Return tt,
     mkState (stdout s
                ++ ["Building package at path " +:+ format_opt (ns_path n);
                    "> " +:+ join " " [conda expanduser; "build"; "-q"; p];
                    out;
                    "Can we can upload? : False"])
             (calls s ++ [via_co [conda expanduser; "build"; "-q"; p]])
             (ns s) (environ s) w).
Proof.
  intros Hns Hsp Hpr. run_build Hns Hsp.
  match goal with
  | |- context [resolve_can_upload_from_travis ?s0] =>
      rewrite (resolve_can_upload_run s0 "true" Hpr)
  end.
  cbn. rewrite <- !app_assoc, Hns. reflexivity.
Qed.

(** Run the gate of an eligible build whose channel resolves. *)
Ltac run_gate pr Hpr Hne branch tag Hb Ht :=
  match goal with
  | |- context [resolve_can_upload_from_travis ?s0] =>
      rewrite (resolve_can_upload_run s0 pr Hpr)
  end;
  rewrite Hne; cbn [negb];
  match goal with
  | |- context [resolve_channel_from_travis_state ?s0] =>
      rewrite (resolve_channel_run s0 branch tag Hb Ht)
  end;
  cbn [ret print fst snd stdout calls ns environ world].

(** X13. An eligible build with both credentials: after the build, the
    one further process is the upload, started with the key, the user,
    the channel the gate resolved and the package path the metadata
    reader gave, in that order of arguments.  The function returns when
    the upload exits with status 0 and raises the masked error
    otherwise. *)
Theorem build_and_upload_eligible
    n p u k s out w pr branch tag pkg rc2 out2 w2 :
  ns s = Some n ->
  spawn [conda expanduser; "build"; "-q"; p] (world s) = (0%Z, out, w) ->
  environ s !! "TRAVIS_PULL_REQUEST" = Some pr ->
  pr <> "true" ->
  environ s !! "TRAVIS_BRANCH" = Some branch ->
  environ s !! "TRAVIS_TAG" = Some tag ->
  bldpkg_path_MetaData (Some p) w = inr pkg ->
  let channel :=
    if negb (String.eqb tag EmptyString) && String.eqb branch tag
    then "main" else branch in
  spawn [binstar expanduser; "-t"; k; "upload"; "--force"; "-u"; u;
         "-c"; channel; pkg] w = (rc2, out2, w2) ->
  calls (snd (build_and_upload spawn expanduser bldpkg_path_MetaData
                (Some p) (Some u) (Some k) s))
    = calls s
        ++ [via_co [conda expanduser; "build"; "-q"; p];
            via_check [binstar expanduser; "-t"; k; "upload"; "--force";
                       "-u"; u; "-c"; channel; pkg]]
  /\ fst (build_and_upload spawn expanduser bldpkg_path_MetaData
            (Some p) (Some u) (Some k) s)
     = (if (rc2 =? 0)%Z then Return tt
        else Raise (CalledProcessError rc2
                      [binstar expanduser; "-t"; "BINSTAR_KEY"; "upload";
                       "--force"; "-u"; u; "-c"; channel; pkg] None))
  /\ world (snd (build_and_upload spawn expanduser bldpkg_path_MetaData
                   (Some p) (Some u) (Some k) s)) = w2.
Proof.
  intros Hns Hsp Hpr Hne Hb Ht Hpkg channel Hup.
  apply String.eqb_neq in Hne.
  run_build Hns Hsp. run_gate pr Hpr Hne branch tag Hb Ht.
  fold channel. unfold get_conda_build_path.
  cbn [world]. rewrite Hpkg.
  destruct (Z.eq_dec rc2 0%Z) as [-> | Hrc2].
  - match goal with
    | |- context [binstar_upload spawn expanduser k u channel pkg ?s0] =>
        rewrite (binstar_upload_exit_zero k u channel pkg s0 out2 w2 Hup)
    end.
    cbn. rewrite <- app_assoc. repeat split; reflexivity.
  - match goal with
    | |- context [binstar_upload spawn expanduser k u channel pkg ?s0] =>
        rewrite (binstar_upload_exit_nonzero k u channel pkg s0 rc2 out2 w2
                   Hup Hrc2)
    end.
    apply Z.eqb_neq in Hrc2. rewrite Hrc2.
    cbn. rewrite <- app_assoc. repeat split; reflexivity.
Qed.

(** X14. With both credentials the Travis variables are required, but
    only after the build: when the build has succeeded and a variable
    the gate needs is missing, a [KeyError] is raised, the build stays
    the only process started, and nothing is uploaded. *)
Theorem build_and_upload_missing_variable n p u k s out w :
  ns s = Some n ->
  spawn [conda expanduser; "build"; "-q"; p] (world s) = (0%Z, out, w) ->
  (environ s !! "TRAVIS_PULL_REQUEST" = None
   \/ exists pr, environ s !! "TRAVIS_PULL_REQUEST" = Some pr
                 /\ pr <> "true"
                 /\ (environ s !! "TRAVIS_BRANCH" = None
                     \/ environ s !! "TRAVIS_TAG" = None)) ->
  (exists name,
      fst (build_and_upload spawn expanduser bldpkg_path_MetaData
             (Some p) (Some u) (Some k) s) = Raise (KeyError name))
  /\ calls (snd (build_and_upload spawn expanduser bldpkg_path_MetaData
                   (Some p) (Some u) (Some k) s))
     = calls s ++ [via_co [conda expanduser; "build"; "-q"; p]].
Proof.
  intros Hns Hsp Hmiss. run_build Hns Hsp.
  destruct Hmiss as [Hpr | (pr & Hpr & Hne & Hbt)].
  - match goal with
    | |- context [resolve_can_upload_from_travis ?s0] =>
        rewrite (resolve_can_upload_missing s0 Hpr)
    end.
    split; [eexists; reflexivity | reflexivity].
  - apply String.eqb_neq in Hne.
    match goal with
    | |- context [resolve_can_upload_from_travis ?s0] =>
        rewrite (resolve_can_upload_run s0 pr Hpr)
    end.
    rewrite Hne; cbn [negb].
    destruct (environ s !! "TRAVIS_BRANCH") as [branch|] eqn:Hb.
    + destruct Hbt as [Hb' | Ht]; [discriminate|].
      match goal with
      | |- context [resolve_channel_from_travis_state ?s0] =>
          rewrite (resolve_channel_missing_tag s0 branch Hb Ht)
      end.
      split; [eexists; reflexivity | reflexivity].
    + match goal with
      | |- context [resolve_channel_from_travis_state ?s0] =>
          rewrite (resolve_channel_missing_branch s0 Hb)
      end.
      split; [eexists; reflexivity | reflexivity].
Qed.

(** X15. The upload is announced before the package path is known: when
    the metadata reader fails, its error is raised as it is, the line
    [Uploading to user/channel] is the last one printed, and no upload
    process is started. *)
Theorem build_and_upload_package_path_fails
    n p u k s out w pr branch tag e :
  ns s = Some n ->
  spawn [conda expanduser; "build"; "-q"; p] (world s) = (0%Z, out, w) ->
  environ s !! "TRAVIS_PULL_REQUEST" = Some pr ->
  pr <> "true" ->
  environ s !! "TRAVIS_BRANCH" = Some branch ->
  environ s !! "TRAVIS_TAG" = Some tag ->
  bldpkg_path_MetaData (Some p) w = inl e ->
  let channel :=
    if negb (String.eqb tag EmptyString) && String.eqb branch tag
    then "main" else branch in
  fst (build_and_upload spawn expanduser bldpkg_path_MetaData
         (Some p) (Some u) (Some k) s) = Raise e
  /\ last (stdout (snd (build_and_upload spawn expanduser
                          bldpkg_path_MetaData (Some p) (Some u) (Some k) s)))
     = Some ("Uploading to " +:+ u +:+ "/" +:+ channel)
  /\ calls (snd (build_and_upload spawn expanduser bldpkg_path_MetaData
                   (Some p) (Some u) (Some k) s))
     = calls s ++ [via_co [conda expanduser; "build"; "-q"; p]].
Proof.
  intros Hns Hsp Hpr Hne Hb Ht Hpkg channel.
  apply String.eqb_neq in Hne.
  run_build Hns Hsp. run_gate pr Hpr Hne branch tag Hb Ht.
  fold channel. unfold get_conda_build_path.
  cbn [world]. rewrite Hpkg. cbn [fst snd stdout calls].
  repeat split. apply last_snoc.
Qed.



(** ** The program paths *)

Lemma append_nonempty a b : b <> EmptyString -> a +:+ b <> EmptyString.
Proof. destruct a; [trivial | discriminate]. Qed.

Lemma endswith_slash_append a b :
  b <> EmptyString -> endswith_slash (a +:+ b) = endswith_slash b.
Proof.
  intros Hb. induction a as [|c a IH]; [reflexivity|].
  change (String c a +:+ b) with (String c (a +:+ b)).
  cbn [endswith_slash]. rewrite IH.
  destruct (a +:+ b) eqn:Hab; [|reflexivity].
  exfalso. exact (append_nonempty a b Hb Hab).
Qed.

Lemma append_inj_r a b c : a +:+ b = a +:+ c -> b = c.
Proof.
  induction a as [|x a IH]; [trivial|].
  intros [= H]. exact (IH H).
Qed.

(** A path joined with a relative name that does not end in a slash is
    not empty and does not end in a slash. *)
Lemma path_join_relative_tail a b :
  String.prefix "/" b = false -> b <> EmptyString ->
  endswith_slash b = false ->
  String.eqb (path_join a b) EmptyString = false
  /\ endswith_slash (path_join a b) = false.
Proof.
  intros Hrel Hb Hend. unfold path_join. rewrite Hrel.
  destruct (String.eqb a EmptyString || endswith_slash a).
  - split; [apply String.eqb_neq, append_nonempty, Hb|].
    rewrite endswith_slash_append; assumption.
  - split; [apply String.eqb_neq, append_nonempty; discriminate|].
    rewrite endswith_slash_append by discriminate.
    destruct b as [|c b]; [contradiction|].
    change ("/" +:+ String c b) with (String "/" (String c b)).
    exact Hend.
Qed.

(** X17. Whatever [expanduser] gives, [conda] and [binstar] are the
    files of those names directly under [miniconda_bin_dir], hence two
    different programs; and when [miniconda_dir] is not empty and does
    not end in a slash, [miniconda_bin_dir] is its [bin]
    subdirectory. *)
Theorem program_paths :
  conda expanduser = miniconda_bin_dir expanduser +:+ "/conda"
  /\ binstar expanduser = miniconda_bin_dir expanduser +:+ "/binstar"
  /\ conda expanduser <> binstar expanduser
  /\ (miniconda_dir expanduser <> EmptyString ->
      endswith_slash (miniconda_dir expanduser) = false ->
      miniconda_bin_dir expanduser = miniconda_dir expanduser +:+ "/bin").
Proof.
  destruct (path_join_relative_tail (miniconda_dir expanduser) "bin")
    as [Hne Hend]; [reflexivity | discriminate | reflexivity |].
  fold (miniconda_bin_dir expanduser) in Hne, Hend.
  assert (conda expanduser = miniconda_bin_dir expanduser +:+ "/conda")
    as Hconda.
  { unfold conda, path_join. rewrite Hne, Hend. reflexivity. }
  assert (binstar expanduser = miniconda_bin_dir expanduser +:+ "/binstar")
    as Hbinstar.
  { unfold binstar, path_join. rewrite Hne, Hend. reflexivity. }
  split; [exact Hconda | split; [exact Hbinstar | split]].
  - rewrite Hconda, Hbinstar. intros Heq.
    apply append_inj_r in Heq. discriminate.
  - intros Hd Hs. apply String.eqb_neq in Hd.
    unfold miniconda_bin_dir, path_join. rewrite Hd, Hs. reflexivity.
Qed.

(** ** The provisioner, continued *)

Lemma setup_miniconda_hands_list s n url channel :
  ns s = Some n ->
  setup_miniconda spawn expanduser url channel s =
    execute_sequence spawn
      ([ ["wget"; "-nv"; url; "-O"; "miniconda.sh"];
         ["python"; "miniconda.sh"; "-b"; "-p"; miniconda_dir expanduser];
         [conda expanduser; "update"; "-q"; "--yes"; "conda"];
         [conda expanduser; "install"; "-q"; "--yes"; "conda-build";
          "jinja2"; "binstar"] ]
       ++ (if channel is Some ch
           then [[conda expanduser; "config"; "--add"; "channels"; ch]]
           else []))
      None
      (mkState
         (stdout s
            ++ [ "Setting up miniconda from URL " +:+ format_opt (ns_path n);
                 if channel is Some ch
                 then "(adding channel '" +:+ ch +:+ "' for dependencies)"
                 else "No channels have been configured (all dependencies have to be sourceble from anaconda)" ])
         (calls s) (ns s) (environ s) (world s)).
Proof.
  intros Hns. unfold setup_miniconda, bind, global_ns. rewrite Hns.
  destruct channel as [ch|];
    cbn [print fst snd stdout calls ns environ world];
    rewrite <- ?app_assoc, ?Hns; reflexivity.
Qed.

(** X18. Provisioning stops at the first command that fails: when the
    commands before [cmd] in the provisioner's list exit with status 0
    and [cmd] does not, the error raised is the [CalledProcessError] of
    [cmd] with its output, the processes started are those commands and
    [cmd], and the last line printed is the diagnostic. *)
Theorem setup_miniconda_stops_at_first_failure
    s n url channel pre cmd post outs w rc out w' :
  ns s = Some n ->
  [ ["wget"; "-nv"; url; "-O"; "miniconda.sh"];
    ["python"; "miniconda.sh"; "-b"; "-p"; miniconda_dir expanduser];
    [conda expanduser; "update"; "-q"; "--yes"; "conda"];
    [conda expanduser; "install"; "-q"; "--yes"; "conda-build"; "jinja2";
     "binstar"] ]
    ++ (if channel is Some ch
        then [[conda expanduser; "config"; "--add"; "channels"; ch]]
        else [])
    = pre ++ cmd :: post ->
  exit_zero spawn pre (world s) = Some (outs, w) ->
  spawn cmd w = (rc, out, w') ->
  rc <> 0%Z ->
  fst (setup_miniconda spawn expanduser url channel s)
    = Raise (CalledProcessError rc cmd (Some out))
  /\ calls (snd (setup_miniconda spawn expanduser url channel s))
     = calls s ++ map via_co (pre ++ [cmd])
  /\ last (stdout (snd (setup_miniconda spawn expanduser url channel s)))
     = Some (" -> " +:+ out).
Proof.
  intros Hns Hlist Hz Hsp Hrc.
  rewrite (setup_miniconda_hands_list s n url channel Hns), Hlist.
  match goal with
  | |- context [execute_sequence spawn _ None ?s0] =>
      rewrite (execute_sequence_first_failure pre cmd post None s0
                 outs w rc out w' Hz Hsp Hrc)
  end.
  cbn [fst snd calls stdout]. repeat split.
  rewrite !app_assoc. apply last_snoc.
Qed.

(** ** What a whole run does to the state *)

Lemma resolve_can_upload_frame s :
  calls (snd (resolve_can_upload_from_travis s)) = calls s
  /\ ns (snd (resolve_can_upload_from_travis s)) = ns s
  /\ environ (snd (resolve_can_upload_from_travis s)) = environ s.
Proof.
  destruct (environ s !! "TRAVIS_PULL_REQUEST") as [pr|] eqn:Hpr.
  - rewrite (resolve_can_upload_run _ _ Hpr). auto.
  - rewrite (resolve_can_upload_missing _ Hpr). auto.
Qed.

Lemma resolve_channel_frame s :
  calls (snd (resolve_channel_from_travis_state s)) = calls s
  /\ ns (snd (resolve_channel_from_travis_state s)) = ns s
  /\ environ (snd (resolve_channel_from_travis_state s)) = environ s.
Proof.
  destruct (environ s !! "TRAVIS_BRANCH") as [branch|] eqn:Hb.
  - destruct (environ s !! "TRAVIS_TAG") as [tag|] eqn:Ht.
    + rewrite (resolve_channel_run _ _ _ Hb Ht). auto.
    + rewrite (resolve_channel_missing_tag _ _ Hb Ht). auto.
  - rewrite (resolve_channel_missing_branch _ Hb). auto.
Qed.

Lemma binstar_upload_frame k u ch pkg s :
  calls (snd (binstar_upload spawn expanduser k u ch pkg s))
    = calls s ++ [via_check [binstar expanduser; "-t"; k; "upload";
                             "--force"; "-u"; u; "-c"; ch; pkg]]
  /\ ns (snd (binstar_upload spawn expanduser k u ch pkg s)) = ns s
  /\ environ (snd (binstar_upload spawn expanduser k u ch pkg s)) = environ s.
Proof.
  destruct (spawn [binstar expanduser; "-t"; k; "upload"; "--force";
                   "-u"; u; "-c"; ch; pkg] (world s))
    as [[rc out] w] eqn:Hsp.
  destruct (Z.eq_dec rc 0%Z) as [-> | Hrc].
  - rewrite (binstar_upload_exit_zero _ _ _ _ _ _ _ Hsp). auto.
  - rewrite (binstar_upload_exit_nonzero _ _ _ _ _ _ _ _ Hsp Hrc). auto.
Qed.

Lemma build_frame_full path s :
  exists started,
    calls (snd (build spawn expanduser path s)) = calls s ++ map via_co started
    /\ ns (snd (build spawn expanduser path s)) = ns s
    /\ environ (snd (build spawn expanduser path s)) = environ s.
Proof.
  destruct path as [p|]; cbn [build].
  - sequencer_frame k pr Hc Hout.
    destruct (execute_sequence_frame [[conda expanduser; "build"; "-q"; p]]
                None s) as (k' & pr' & Hc' & _ & Hns & Henv).
    eexists. eauto.
  - exists []. cbn. rewrite app_nil_r. auto.
Qed.

Lemma setup_miniconda_frame u ch s :
  exists started,
    calls (snd (setup_miniconda spawn expanduser u ch s))
      = calls s ++ map via_co started
    /\ ns (snd (setup_miniconda spawn expanduser u ch s)) = ns s
    /\ environ (snd (setup_miniconda spawn expanduser u ch s)) = environ s.
Proof.
  destruct (ns s) as [n|] eqn:Hns.
  - rewrite (setup_miniconda_hands_list s n u ch Hns).
    match goal with
    | |- context [execute_sequence spawn ?cs None ?s0] =>
        destruct (execute_sequence_frame cs None s0)
          as (k & pr & Hc & _ & Hn & He)
    end.
    cbn [calls ns environ] in Hc, Hn, He.
    eexists. split; [exact Hc | split; [rewrite Hn; exact Hns | exact He]].
  - unfold setup_miniconda, bind, global_ns. rewrite Hns.
    exists []. cbn. rewrite app_nil_r. auto.
Qed.

Lemma build_and_upload_frame path user key s :
  exists started upload,
    calls (snd (build_and_upload spawn expanduser bldpkg_path_MetaData
                  path user key s))
      = calls s ++ map via_co started ++ upload
    /\ (upload = []
        \/ exists u k ch pkg,
             user = Some u /\ key = Some k
             /\ upload = [via_check [binstar expanduser; "-t"; k; "upload";
                                     "--force"; "-u"; u; "-c"; ch; pkg]])
    /\ ns (snd (build_and_upload spawn expanduser bldpkg_path_MetaData
                  path user key s)) = ns s
    /\ environ (snd (build_and_upload spawn expanduser bldpkg_path_MetaData
                       path user key s)) = environ s.
Proof.
  unfold build_and_upload, bind, global_ns.
  destruct (ns s) as [n|] eqn:Hns;
    [|exists [], []; cbn; rewrite app_nil_r; auto].
  cbn [print fst snd].
  match goal with
  | |- context [build spawn expanduser path ?s0] =>
      destruct (build_frame_full path s0) as (started & Hc & Hn & He);
      destruct (build spawn expanduser path s0) as [[[]|e] s1]
  end; cbn [fst snd calls ns environ] in Hc, Hn, He;
    [|exists started, []; cbn [snd]; rewrite app_nil_r;
      repeat split; auto; congruence].
  assert (forall s2 : state World,
             calls s2 = calls s1 -> ns s2 = ns s1 -> environ s2 = environ s1 ->
             exists (started0 : list (list string)) (upload : list call),
               calls s2 = calls s ++ map via_co started0 ++ upload
               /\ (upload = []
                   \/ exists u k ch pkg,
                        user = Some u /\ key = Some k
                        /\ upload = [via_check [binstar expanduser; "-t"; k;
                                                "upload"; "--force"; "-u"; u;
                                                "-c"; ch; pkg]])
               /\ ns s2 = Some n /\ environ s2 = environ s) as Hquiet.
  { intros s2 Hc2 Hn2 He2. exists started, [].
    rewrite app_nil_r. repeat split; [congruence | auto | congruence..]. }
  destruct key as [k|], user as [u|]; cbn [ret print fst snd];
    try (apply Hquiet; reflexivity).
  destruct (resolve_can_upload_frame s1) as (Hc2 & Hn2 & He2).
  destruct (resolve_can_upload_from_travis s1) as [[[|]|e] s2];
    cbn [fst snd] in Hc2, Hn2, He2 |- *; try (apply Hquiet; assumption).
  destruct (resolve_channel_frame s2) as (Hc3 & Hn3 & He3).
  destruct (resolve_channel_from_travis_state s2) as [[ch|e] s3];
    cbn [fst snd] in Hc3, Hn3, He3 |- *;
    [|apply Hquiet; congruence].
  cbn [print fst snd]. unfold get_conda_build_path. cbn [world].
  destruct (bldpkg_path_MetaData path (world s3)) as [e|pkg];
    [cbn [snd]; apply Hquiet; cbn; congruence|].
  match goal with
  | |- context [binstar_upload spawn expanduser k u ch pkg ?s4] =>
      destruct (binstar_upload_frame k u ch pkg s4) as (Hc4 & Hn4 & He4)
  end.
  cbn [calls ns environ] in Hc4, Hn4, He4.
  exists started. eexists. split; [|split; [|split]].
  - rewrite Hc4, Hc3, Hc2, Hc, <- app_assoc. reflexivity.
  - right. exists u, k, ch, pkg. auto.
  - congruence.
  - congruence.
Qed.

(** X19. The shape of any run of the script.  The processes it starts
    are, in order, some commands run through the runner, then at most
    one upload, which is the last process started, is only made in build
    mode, and carries the user and the key of the command line.  The
    environment is never written, and [ns] ends bound to the parsed
    arguments. *)
Theorem main_run_shape parsed s :
  exists started upload,
    calls (snd (main spawn expanduser bldpkg_path_MetaData parsed s))
      = calls s ++ map via_co started ++ upload
    /\ (upload = []
        \/ exists u k ch pkg,
             ns_mode parsed = build_mode
             /\ ns_user parsed = Some u /\ ns_key parsed = Some k
             /\ upload = [via_check [binstar expanduser; "-t"; k; "upload";
                                     "--force"; "-u"; u; "-c"; ch; pkg]])
    /\ ns (snd (main spawn expanduser bldpkg_path_MetaData parsed s))
       = Some parsed
    /\ environ (snd (main spawn expanduser bldpkg_path_MetaData parsed s))
       = environ s.
Proof.
  unfold main, bind, assign_ns.
  destruct (ns_mode parsed) eqn:Hmode.
  - destruct (ns_url parsed) as [u|].
    + match goal with
      | |- context [setup_miniconda spawn expanduser u ?ch ?s0] =>
          destruct (setup_miniconda_frame u ch s0) as (started & Hc & Hn & He)
      end.
      exists started, []. rewrite app_nil_r. auto.
    + exists [], []. cbn. rewrite app_nil_r. auto.
  - match goal with
    | |- context [build_and_upload _ _ _ ?p ?u ?k ?s0] =>
        destruct (build_and_upload_frame p u k s0)
          as (started & upload & Hc & Hup & Hn & He)
    end.
    exists started, upload. repeat split; try assumption.
    destruct Hup as [-> | (u & k & ch & pkg & Hu & Hk & ->)];
      [left; reflexivity | right; exists u, k, ch, pkg; auto].
Qed.

End Properties.

(** * Concrete runs *)

(** A tagged release that is not a pull request is built and uploaded
    to [main]. *)
Example build_mode_tagged_release :
  main all_succeed home_root no_pkg_path
    (build_args (Some "/pkg") (Some "alice") (Some "secret123"))
    (initial None (travis_env "false" "release" "release"))
  = (Return tt,
     mkState
       ["Building package at path /pkg";
        "> /home/travis/miniconda/bin/conda build -q /pkg"; "ok";
        "Can we can upload? : True";
        "Travis branch is " +:+ dquote +:+ "release" +:+ dquote;
        "Travis tag found is: " +:+ dquote +:+ "release" +:+ dquote;
        "on a tagged release -> upload to 'main'";
        "Uploading to alice/main";
        "ok"]
       [via_co ["/home/travis/miniconda/bin/conda"; "build"; "-q"; "/pkg"];
        via_check ["/home/travis/miniconda/bin/binstar"; "-t"; "secret123";
                   "upload"; "--force"; "-u"; "alice"; "-c"; "main";
                   "/pkg.tar.bz2"]]
       (Some (build_args (Some "/pkg") (Some "alice") (Some "secret123")))
       (travis_env "false" "release" "release") 2%nat).
Proof. reflexivity. Qed.

(** The same build as a pull request: built, not uploaded. *)
Example build_mode_pull_request :
  calls (snd (main all_succeed home_root no_pkg_path
                (build_args (Some "/pkg") (Some "alice") (Some "secret123"))
                (initial None (travis_env "true" "release" "release"))))
  = [via_co ["/home/travis/miniconda/bin/conda"; "build"; "-q"; "/pkg"]].
Proof. reflexivity. Qed.

(** Setup without a channel: four commands, no channel registration. *)
Example setup_mode_without_channel :
  map call_cmd
    (calls (snd (main all_succeed home_root no_pkg_path
                   (setup_args (Some "http://x/installer.sh") None)
                   (initial None ∅))))
  = [ ["wget"; "-nv"; "http://x/installer.sh"; "-O"; "miniconda.sh"];
      ["python"; "miniconda.sh"; "-b"; "-p"; "/home/travis/miniconda"];
      ["/home/travis/miniconda/bin/conda"; "update"; "-q"; "--yes"; "conda"];
      ["/home/travis/miniconda/bin/conda"; "install"; "-q"; "--yes";
       "conda-build"; "jinja2"; "binstar"] ].
Proof. reflexivity. Qed.

(** Build mode without [--path]: the [TypeError] of the join, before any
    process. *)
Example build_mode_without_path :
  main all_succeed home_root no_pkg_path (build_args None None None)
    (initial None ∅)
  = (Raise (TypeError "sequence item 3: expected string, NoneType found"),
     mkState ["Building package at path None"] []
             (Some (build_args None None None)) ∅ 0%nat).
Proof. reflexivity. Qed.

(** * Witnesses *)

Lemma resolve_channel_main_or_branch_witness :
  (fst (resolve_channel_from_travis_state
          (initial None (travis_env "false" "v1.0" "v1.0"))) = Return "main")
  /\ (fst (resolve_channel_from_travis_state
          (initial None (travis_env "false" "master" EmptyString)))
      = Return "master").
Proof.
  split.
  - apply (resolve_channel_main_or_branch
             (initial None (travis_env "false" "v1.0" "v1.0")) "v1.0" "v1.0");
      [reflexivity | reflexivity | split; [discriminate | reflexivity]].
  - apply (resolve_channel_main_or_branch
             (initial None (travis_env "false" "master" EmptyString))
             "master" EmptyString);
      [reflexivity | reflexivity | left; reflexivity].
Defined.

Lemma resolve_can_upload_is_not_pr_witness :
  fst (resolve_can_upload_from_travis
         (initial None (travis_env "1" "master" EmptyString))) = Return true.
Proof.
  apply (resolve_can_upload_is_not_pr
           (initial None (travis_env "1" "master" EmptyString)) "1");
    [reflexivity | discriminate].
Defined.

Lemma execute_sequence_in_order_fail_fast_witness :
  execute_sequence (fails_on ["false"])
    ([["echo"; "a"]; ["echo"; "b"]] ++ ["false"] :: [["echo"; "c"]]) None
    (initial None ∅)
  = (Raise (CalledProcessError 2 ["false"] (Some "boom")),
     mkState ["> echo a"; "ok"; "> echo b"; "ok"; "> false"; " -> boom"]
             [via_co ["echo"; "a"]; via_co ["echo"; "b"]; via_co ["false"]]
             None ∅ 3%nat).
Proof.
  apply (execute_sequence_in_order_fail_fast (fails_on ["false"])
           (initial None ∅) [["echo"; "a"]; ["echo"; "b"]] ["false"]
           [["echo"; "c"]] ["ok"; "ok"] 2%nat 2%Z "boom" 3%nat);
    [reflexivity | reflexivity | discriminate].
Defined.

Lemma build_and_upload_without_credentials_witness :
  build_and_upload all_succeed home_root no_pkg_path
    (Some "/pkg") (Some "alice") None
    (initial (Some (mkNamespace build_mode None None (Some "/pkg")
                      (Some "alice") None))
             (travis_env "false" "release" "release"))
  = (Return tt,
     mkState ["Building package at path /pkg";
              "> /home/travis/miniconda/bin/conda build -q /pkg"; "ok";
              "No binstar key provided"; "-> Unable to upload to binstar"]
             [via_co ["/home/travis/miniconda/bin/conda"; "build"; "-q";
                      "/pkg"]]
             (Some (mkNamespace build_mode None None (Some "/pkg")
                      (Some "alice") None))
             (travis_env "false" "release" "release") 1%nat).
Proof.
  destruct (build_and_upload_without_credentials all_succeed home_root
              no_pkg_path
              (initial (Some (mkNamespace build_mode None None (Some "/pkg")
                                (Some "alice") None))
                       (travis_env "false" "release" "release"))
              (Some "/pkg") (Some "alice") None (or_intror eq_refl))
    as [_ Hrun].
  exact (Hrun _ _ eq_refl eq_refl).
Defined.

Lemma binstar_upload_masks_key_position_witness :
  exists e,
    fst (binstar_upload all_fail home_root "hunter2" "alice" "main"
           "/pkg.tar.bz2" (initial None ∅)) = Raise e
    /\ exn_cmd e =
         Some ["/home/travis/miniconda/bin/binstar"; "-t"; "BINSTAR_KEY";
               "upload"; "--force"; "-u"; "alice"; "-c"; "main";
               "/pkg.tar.bz2"]
    /\ mentions "hunter2" e = false.
Proof.
  destruct (binstar_upload_masks_key_position all_fail home_root
              "hunter2" "alice" "main" "/pkg.tar.bz2" (initial None ∅)
              1%Z "boom" 1%nat eq_refl)
    as (e & Hraise & _ & _ & _ & Hcmd & Hclean); [discriminate|].
  exists e. split; [exact Hraise | split; [exact Hcmd |]].
  apply Hclean. reflexivity.
Defined.

(** C4 as stated fails: the key also given as the user name is still in
    the argument list of the error raised. *)
Lemma binstar_upload_key_elsewhere_counterexample :
  fst (binstar_upload all_fail home_root "hunter2" "hunter2" "main"
         "/pkg.tar.bz2" (initial None ∅))
  = Raise (CalledProcessError 1
             ["/home/travis/miniconda/bin/binstar"; "-t"; "BINSTAR_KEY";
              "upload"; "--force"; "-u"; "hunter2"; "-c"; "main";
              "/pkg.tar.bz2"] None)
  /\ mentions "hunter2"
       (CalledProcessError 1
          ["/home/travis/miniconda/bin/binstar"; "-t"; "BINSTAR_KEY";
           "upload"; "--force"; "-u"; "hunter2"; "-c"; "main";
           "/pkg.tar.bz2"] None) = true.
Proof. split; reflexivity. Qed.

Lemma failures_are_CalledProcessError_witness :
  fst (execute all_fail ["wget"; "-nv"; "http://x/installer.sh"] true
         (initial None ∅))
  = Raise (CalledProcessError 1 ["wget"; "-nv"; "http://x/installer.sh"]
             (Some "boom"))
  /\ fst (execute_sequence (fails_on ["false"])
            ([["echo"; "a"]] ++ ["false"] :: [["echo"; "c"]]) None
            (initial None ∅))
     = Raise (CalledProcessError 2 ["false"] (Some "boom"))
  /\ fst (binstar_upload all_fail home_root "hunter2" "alice" "main"
            "/pkg.tar.bz2" (initial None ∅))
     = Raise (CalledProcessError 1
                ["/home/travis/miniconda/bin/binstar"; "-t"; "BINSTAR_KEY";
                 "upload"; "--force"; "-u"; "alice"; "-c"; "main";
                 "/pkg.tar.bz2"] None).
Proof.
  split; [|split].
  - destruct (failures_are_CalledProcessError all_fail home_root
                (initial None ∅)) as (Hrun & _ & _).
    apply (Hrun _ true 1%Z "boom" 1%nat); [reflexivity | discriminate].
  - destruct (failures_are_CalledProcessError (fails_on ["false"]) home_root
                (initial None ∅)) as (_ & Hseq & _).
    apply (Hseq [["echo"; "a"]] ["false"] [["echo"; "c"]] None ["ok"]
             1%nat 2%Z "boom" 2%nat);
      [reflexivity | reflexivity | discriminate].
  - destruct (failures_are_CalledProcessError all_fail home_root
                (initial None ∅)) as (_ & _ & Hup).
    apply (Hup "hunter2" "alice" "main" "/pkg.tar.bz2" 1%Z "boom" 1%nat);
      [reflexivity | discriminate].
Defined.

(** C6 as stated fails: the process wrote [boom], yet the error of the
    failed upload has no output, and its argument list is not the one
    the process was started with. *)
Lemma upload_error_without_output_counterexample :
  snd (fst (all_fail ["/home/travis/miniconda/bin/binstar"; "-t"; "hunter2";
                      "upload"; "--force"; "-u"; "alice"; "-c"; "main";
                      "/pkg.tar.bz2"] 0%nat)) = "boom"
  /\ exists e,
       fst (binstar_upload all_fail home_root "hunter2" "alice" "main"
              "/pkg.tar.bz2" (initial None ∅)) = Raise e
       /\ exn_output e = None
       /\ exn_cmd e <>
            Some ["/home/travis/miniconda/bin/binstar"; "-t"; "hunter2";
                  "upload"; "--force"; "-u"; "alice"; "-c"; "main";
                  "/pkg.tar.bz2"].
Proof.
  split; [reflexivity|].
  eexists. split; [reflexivity | split; [reflexivity | discriminate]].
Qed.

Lemma processes_started_by_each_component_witness :
  fst (execute all_succeed ["conda"; "info"] false (initial None ∅))
    = Return "ok"
  /\ calls (snd (execute all_succeed ["conda"; "info"] false
                   (initial None ∅))) = [via_co ["conda"; "info"]].
Proof.
  destruct (processes_started_by_each_component all_succeed home_root
              (initial None ∅)) as (Hrun & _).
  apply (Hrun ["conda"; "info"] false "ok" 1%nat). reflexivity.
Defined.

(** C7 as stated fails: the one process of a successful upload is
    started through [check], not by the runner; its output lands on
    standard output and nothing is returned. *)
Lemma upload_bypasses_runner_counterexample :
  binstar_upload all_succeed home_root "hunter2" "alice" "main"
    "/pkg.tar.bz2" (initial None ∅)
  = (Return tt,
     mkState ["ok"]
             [via_check ["/home/travis/miniconda/bin/binstar"; "-t";
                         "hunter2"; "upload"; "--force"; "-u"; "alice";
                         "-c"; "main"; "/pkg.tar.bz2"]]
             None ∅ 1%nat)
  /\ forallb is_via_co
       (calls (snd (binstar_upload all_succeed home_root "hunter2" "alice"
                      "main" "/pkg.tar.bz2" (initial None ∅)))) = false.
Proof. split; reflexivity. Qed.

Lemma setup_miniconda_command_list_witness :
  setup_miniconda all_succeed home_root "http://x/installer.sh" None
    (initial (Some (setup_args (Some "http://x/installer.sh") None)) ∅)
  = (Return tt,
     mkState
       ["Setting up miniconda from URL None";
        "No channels have been configured (all dependencies have to be sourceble from anaconda)";
        "> wget -nv http://x/installer.sh -O miniconda.sh"; "ok";
        "> python miniconda.sh -b -p /home/travis/miniconda"; "ok";
        "> /home/travis/miniconda/bin/conda update -q --yes conda"; "ok";
        "> /home/travis/miniconda/bin/conda install -q --yes conda-build jinja2 binstar";
        "ok"]
       [via_co ["wget"; "-nv"; "http://x/installer.sh"; "-O"; "miniconda.sh"];
        via_co ["python"; "miniconda.sh"; "-b"; "-p";
                "/home/travis/miniconda"];
        via_co ["/home/travis/miniconda/bin/conda"; "update"; "-q"; "--yes";
                "conda"];
        via_co ["/home/travis/miniconda/bin/conda"; "install"; "-q"; "--yes";
                "conda-build"; "jinja2"; "binstar"]]
       (Some (setup_args (Some "http://x/installer.sh") None)) ∅ 4%nat).
Proof.
  destruct (setup_miniconda_command_list all_succeed home_root
              (initial (Some (setup_args (Some "http://x/installer.sh") None))
                       ∅)
              (setup_args (Some "http://x/installer.sh") None)
              "http://x/installer.sh" None eq_refl) as (_ & _ & Hall).
  exact (Hall ["ok"; "ok"; "ok"; "ok"] 4%nat eq_refl).
Defined.

Lemma main_setup_requires_url_witness :
  main all_succeed home_root no_pkg_path (setup_args None (Some "extras"))
    (initial None ∅)
  = (Raise (ValueError
              "You must provide a miniconda URL for the setup command"),
     mkState [] [] (Some (setup_args None (Some "extras"))) ∅ 0%nat).
Proof.
  destruct (main_setup_requires_url all_succeed home_root no_pkg_path
              (initial None ∅) (setup_args None (Some "extras")) eq_refl)
    as [Hmissing _].
  destruct (Hmissing eq_refl) as [Hrun _]. exact Hrun.
Defined.

Lemma functions_read_global_ns_witness :
  setup_miniconda all_succeed home_root "http://x/installer.sh" None
    (initial None ∅) = (Raise (NameError "ns"), initial None ∅)
  /\ build_and_upload all_succeed home_root no_pkg_path (Some "/pkg") None
       None (initial None ∅) = (Raise (NameError "ns"), initial None ∅).
Proof.
  destruct (functions_read_global_ns all_succeed home_root no_pkg_path
              (initial None ∅)) as [Hunbound _].
  exact (Hunbound eq_refl "http://x/installer.sh" None (Some "/pkg") None
           None).
Defined.

(** * Witnesses of the further properties *)

Lemma execute_sequence_quiet_diagnostic_witness :
  stdout (snd (execute_sequence (fails_on ["false"])
                 ([["echo"; "a"]] ++ ["false"] :: [["echo"; "c"]])
                 (Some false) (initial None ∅)))
  = [" -> boom"].
Proof.
  destruct (execute_sequence_quiet_diagnostic (fails_on ["false"])
              (initial None ∅) [["echo"; "a"]] ["false"] [["echo"; "c"]]
              ["ok"] 1%nat 2%Z "boom" 2%nat eq_refl eq_refl)
    as [Hquiet _]; [discriminate | exact Hquiet].
Defined.

Lemma upload_gate_missing_variable_witness :
  resolve_can_upload_from_travis (initial None ∅)
    = (Raise (KeyError "TRAVIS_PULL_REQUEST"), initial None ∅)
  /\ resolve_channel_from_travis_state
       (initial None (<["TRAVIS_BRANCH" := "master"]> ∅))
     = (Raise (KeyError "TRAVIS_TAG"),
        initial None (<["TRAVIS_BRANCH" := "master"]> ∅)).
Proof.
  split.
  - destruct (upload_gate_missing_variable (initial None ∅)) as (Hpr & _ & _).
    exact (Hpr eq_refl).
  - destruct (upload_gate_missing_variable
                (initial None (<["TRAVIS_BRANCH" := "master"]> ∅)))
      as (_ & _ & Htag).
    exact (Htag "master" eq_refl eq_refl).
Defined.

Lemma resolve_channel_main_iff_witness :
  fst (resolve_channel_from_travis_state
         (initial None (travis_env "false" "main" EmptyString)))
  = Return "main".
Proof.
  destruct (resolve_channel_main_iff
              (initial None (travis_env "false" "main" EmptyString))
              "main" EmptyString eq_refl eq_refl) as [[_ Hmain] _].
  apply Hmain. right. reflexivity.
Defined.

Lemma build_and_upload_build_fails_witness :
  build_and_upload all_fail home_root no_pkg_path
    (Some "/pkg") (Some "alice") (Some "secret123")
    (initial (Some (build_args (Some "/pkg") (Some "alice")
                      (Some "secret123"))) ∅)
  = (Raise (CalledProcessError 1
              ["/home/travis/miniconda/bin/conda"; "build"; "-q"; "/pkg"]
              (Some "boom")),
     mkState ["Building package at path /pkg";
              "> /home/travis/miniconda/bin/conda build -q /pkg";
              " -> boom"]
             [via_co ["/home/travis/miniconda/bin/conda"; "build"; "-q";
                      "/pkg"]]
             (Some (build_args (Some "/pkg") (Some "alice")
                      (Some "secret123"))) ∅ 1%nat).
Proof.
  apply (build_and_upload_build_fails all_fail home_root no_pkg_path
           (build_args (Some "/pkg") (Some "alice") (Some "secret123"))
           "/pkg" (Some "alice") (Some "secret123")
           (initial (Some (build_args (Some "/pkg") (Some "alice")
                             (Some "secret123"))) ∅)
           1%Z "boom" 1%nat);
    [reflexivity | reflexivity | discriminate].
Defined.

Lemma build_and_upload_pull_request_witness :
  build_and_upload all_succeed home_root no_pkg_path
    (Some "/pkg") (Some "alice") (Some "secret123")
    (initial (Some (build_args (Some "/pkg") (Some "alice")
                      (Some "secret123")))
             (<["TRAVIS_PULL_REQUEST" := "true"]> ∅))
  = (Return tt,
     mkState ["Building package at path /pkg";
              "> /home/travis/miniconda/bin/conda build -q /pkg"; "ok";
              "Can we can upload? : False"]
             [via_co ["/home/travis/miniconda/bin/conda"; "build"; "-q";
                      "/pkg"]]
             (Some (build_args (Some "/pkg") (Some "alice")
                      (Some "secret123")))
             (<["TRAVIS_PULL_REQUEST" := "true"]> ∅) 1%nat).
Proof.
  exact (build_and_upload_pull_request all_succeed home_root no_pkg_path
           (build_args (Some "/pkg") (Some "alice") (Some "secret123"))
           "/pkg" "alice" "secret123"
           (initial (Some (build_args (Some "/pkg") (Some "alice")
                             (Some "secret123")))
                    (<["TRAVIS_PULL_REQUEST" := "true"]> ∅))
           "ok" 1%nat eq_refl eq_refl eq_refl).
Defined.

Lemma build_and_upload_eligible_witness :
  calls (snd (build_and_upload all_succeed home_root no_pkg_path
                (Some "/pkg") (Some "alice") (Some "secret123")
                (initial (Some (build_args (Some "/pkg") (Some "alice")
                                  (Some "secret123")))
                         (travis_env "false" "feature" EmptyString))))
  = [via_co ["/home/travis/miniconda/bin/conda"; "build"; "-q"; "/pkg"];
     via_check ["/home/travis/miniconda/bin/binstar"; "-t"; "secret123";
                "upload"; "--force"; "-u"; "alice"; "-c"; "feature";
                "/pkg.tar.bz2"]].
Proof.
  destruct (build_and_upload_eligible all_succeed home_root no_pkg_path
              (build_args (Some "/pkg") (Some "alice") (Some "secret123"))
              "/pkg" "alice" "secret123"
              (initial (Some (build_args (Some "/pkg") (Some "alice")
                                (Some "secret123")))
                       (travis_env "false" "feature" EmptyString))
              "ok" 1%nat "false" "feature" EmptyString "/pkg.tar.bz2"
              0%Z "ok" 2%nat eq_refl eq_refl eq_refl)
    as (Hcalls & _ & _);
    [discriminate | reflexivity | reflexivity | reflexivity | reflexivity |].
  exact Hcalls.
Defined.

Lemma build_and_upload_missing_variable_witness :
  calls (snd (build_and_upload all_succeed home_root no_pkg_path
                (Some "/pkg") (Some "alice") (Some "secret123")
                (initial (Some (build_args (Some "/pkg") (Some "alice")
                                  (Some "secret123"))) ∅)))
  = [via_co ["/home/travis/miniconda/bin/conda"; "build"; "-q"; "/pkg"]].
Proof.
  destruct (build_and_upload_missing_variable all_succeed home_root
              no_pkg_path
              (build_args (Some "/pkg") (Some "alice") (Some "secret123"))
              "/pkg" "alice" "secret123"
              (initial (Some (build_args (Some "/pkg") (Some "alice")
                                (Some "secret123"))) ∅)
              "ok" 1%nat eq_refl eq_refl)
    as [_ Hcalls]; [left; reflexivity | exact Hcalls].
Defined.

Lemma build_and_upload_package_path_fails_witness :
  fst (build_and_upload all_succeed home_root pkg_path_unavailable
         (Some "/pkg") (Some "alice") (Some "secret123")
         (initial (Some (build_args (Some "/pkg") (Some "alice")
                           (Some "secret123")))
                  (travis_env "false" "v1.0" "v1.0")))
  = Raise (ExternalError "no meta.yaml")
  /\ last (stdout (snd (build_and_upload all_succeed home_root
                          pkg_path_unavailable
                          (Some "/pkg") (Some "alice") (Some "secret123")
                          (initial (Some (build_args (Some "/pkg")
                                            (Some "alice")
                                            (Some "secret123")))
                                   (travis_env "false" "v1.0" "v1.0")))))
     = Some "Uploading to alice/main".
Proof.
  destruct (build_and_upload_package_path_fails all_succeed home_root
              pkg_path_unavailable
              (build_args (Some "/pkg") (Some "alice") (Some "secret123"))
              "/pkg" "alice" "secret123"
              (initial (Some (build_args (Some "/pkg") (Some "alice")
                                (Some "secret123")))
                       (travis_env "false" "v1.0" "v1.0"))
              "ok" 1%nat "false" "v1.0" "v1.0" (ExternalError "no meta.yaml")
              eq_refl eq_refl eq_refl)
    as (Hraise & Hlast & _);
    [discriminate | reflexivity | reflexivity | reflexivity |].
  split; [exact Hraise | exact Hlast].
Defined.


Lemma program_paths_witness :
  miniconda_bin_dir home_root = "/home/travis/miniconda/bin".
Proof.
  destruct (program_paths home_root) as (_ & _ & _ & Hbin).
  apply Hbin; [discriminate | reflexivity].
Defined.

Lemma setup_miniconda_stops_at_first_failure_witness :
  calls (snd (setup_miniconda
                (fails_on ["python"; "miniconda.sh"; "-b"; "-p";
                           "/home/travis/miniconda"])
                home_root "http://x/installer.sh" (Some "extras")
                (initial (Some (setup_args (Some "http://x/installer.sh")
                                  (Some "extras"))) ∅)))
  = [via_co ["wget"; "-nv"; "http://x/installer.sh"; "-O"; "miniconda.sh"];
     via_co ["python"; "miniconda.sh"; "-b"; "-p"; "/home/travis/miniconda"]].
Proof.
  destruct (setup_miniconda_stops_at_first_failure
              (fails_on ["python"; "miniconda.sh"; "-b"; "-p";
                         "/home/travis/miniconda"])
              home_root
              (initial (Some (setup_args (Some "http://x/installer.sh")
                                (Some "extras"))) ∅)
              (setup_args (Some "http://x/installer.sh") (Some "extras"))
              "http://x/installer.sh" (Some "extras")
              [["wget"; "-nv"; "http://x/installer.sh"; "-O"; "miniconda.sh"]]
              ["python"; "miniconda.sh"; "-b"; "-p"; "/home/travis/miniconda"]
              [["/home/travis/miniconda/bin/conda"; "update"; "-q"; "--yes";
                "conda"];
               ["/home/travis/miniconda/bin/conda"; "install"; "-q"; "--yes";
                "conda-build"; "jinja2"; "binstar"];
               ["/home/travis/miniconda/bin/conda"; "config"; "--add";
                "channels"; "extras"]]
              ["ok"] 1%nat 2%Z "boom" 2%nat eq_refl eq_refl eq_refl eq_refl)
    as (_ & Hcalls & _); [discriminate | exact Hcalls].
Defined.
